(** * The e-commerce dashboard of [app.py], embedded in Rocq

    [app.py] is a Streamlit script whose function [main] draws a page,
    opens a database connection, reads one selection from the sidebar
    and, depending on it, runs a fixed list of SQL queries whose results
    are shown as metrics, charts and tables.

    The embedding is shallow.  Everything the script does to the outside
    (drawing an element, opening the connection, running a query) is
    logged as an [event]; a run of [main] is a value [outcome * list
    event].  What the outside answers (whether the connection opens, what
    a query returns, what the select box returns) is a [world]. *)

From Stdlib Require Import String Ascii List ZArith QArith Bool Lia DecimalString.
From Stdlib Require DecimalN DecimalPos.
Import ListNotations.
Open Scope string_scope.
Open Scope list_scope.
Open Scope Z_scope.

(** ** Python values and exceptions *)

Inductive exn : Type :=
| IndexError
| TypeError
| ValueError
| OverflowError
| OtherError (name : string).

(** A finite float: its exact value, and the text [repr] gives for it
    (the shortest digits that read back to the same float; the runtime
    computes them, the model takes them as data).  Negative zero is not
    represented. *)
Record pyfloat : Type := { exact : Q; repr : string }.

Inductive nonfinite : Type := NaN | PosInf | NegInf.

(** The values a cell of a query result can hold. *)
Inductive pyval : Type :=
| PyInt (z : Z)
| PyFloat (f : pyfloat)
| PyNonFinite (n : nonfinite)
| PyNone
| PyStr (s : string).

(** ** Format specifications

    The script formats cells with f-strings; the replacement fields it
    uses are [{x:,}], [{x:,.2f}], [{x:.2f}] and [{x}]. *)

Inductive fspec : Type :=
| Comma      (* ","    *)
| Comma2f    (* ",.2f" *)
| Fixed2f    (* ".2f"  *)
| Plain.     (* ""     *)

Definition chars (s : string) : list ascii := list_ascii_of_string s.
Definition text (l : list ascii) : string := string_of_list_ascii l.

Definition is_digit (c : ascii) : bool :=
  ((48 <=? nat_of_ascii c) && (nat_of_ascii c <=? 57))%nat.

(** Decimal digits of a natural number, most significant first. *)
Definition digits (n : N) : list ascii :=
  chars (NilZero.string_of_uint (N.to_uint n)).

(** Thousands grouping works from the right: the argument is the digit
    string reversed, and a comma goes after every third digit that has a
    digit after it. *)
Fixpoint group3 (r : list ascii) : list ascii :=
  match r with
  | a :: b :: c :: ((_ :: _) as rest) => a :: b :: c :: ","%char :: group3 rest
  | _ => r
  end.

Definition thousands (ds : list ascii) : list ascii := rev (group3 (rev ds)).

Definition sign (neg : bool) : list ascii := if neg then ["-"%char] else [].

(** [format(z, "")] and [format(z, ",")] for an int. *)
Definition int_plain (z : Z) : string :=
  text (sign (z <? 0) ++ digits (Z.abs_N z)).

Definition int_comma (z : Z) : string :=
  text (sign (z <? 0) ++ thousands (digits (Z.abs_N z))).

(** Rounding [n / d] to an integer, ties to even, for [0 <= n]. *)
Definition round_half_even (n : Z) (d : Z) : Z :=
  let q := n / d in
  let r := n mod d in
  match 2 * r ?= d with
  | Lt => q
  | Gt => q + 1
  | Eq => if Z.even q then q else q + 1
  end.

(** The number of hundredths the type code [.2f] prints for the exact
    value [q]: |q| * 100 rounded to an integer, ties to even. *)
Definition hundredths (q : Q) : Z :=
  round_half_even (Z.abs (Qnum q) * 100) (Zpos (Qden q)).

Definition two_digits (n : Z) : list ascii :=
  match digits (Z.to_N n) with
  | [d] => ["0"%char; d]
  | ds => ds
  end.

(** [format(x, ".2f")] and [format(x, ",.2f")] for the exact value [q]:
    the sign is the sign of [q] itself, also when the digits round to
    zero. *)
Definition fixed2 (grouping : bool) (q : Q) : string :=
  let h := hundredths q in
  let whole := digits (Z.to_N (h / 100)) in
  text (sign (Qnum q <? 0)
        ++ (if grouping then thousands whole else whole)
        ++ "."%char :: two_digits (h mod 100)).

(** An int formatted with a float type code is first converted to a
    float: rounded to 53 significant bits, ties to even, with
    [OverflowError] past the largest double. *)
Definition float_of_int (z : Z) : exn + Q :=
  let a := Z.abs z in
  let k := Z.log2 a + 1 - 53 in
  if k <=? 0 then inr (inject_Z z)
  else
    let m := round_half_even a (2 ^ k) * 2 ^ k in
    if 2 ^ 1024 <=? m then inl OverflowError
    else inr (inject_Z (Z.sgn z * m)).

Fixpoint span_digits (l : list ascii) : list ascii * list ascii :=
  match l with
  | c :: rest =>
      if is_digit c then let (ds, tl) := span_digits rest in (c :: ds, tl)
      else ([], l)
  | [] => ([], [])
  end.

(** [format(x, ",")] for a float is its [repr] with the leading run of
    digits grouped. *)
Definition repr_comma (r : string) : string :=
  let cs := chars r in
  let (sg, body) :=
    match cs with
    | "-"%char :: tl => (["-"%char], tl)
    | _ => ([], cs)
    end in
  let (ds, tl) := span_digits body in
  text (sg ++ (match ds with [] => [] | _ => thousands ds end) ++ tl).

Definition nonfinite_text (n : nonfinite) : string :=
  match n with NaN => "nan" | PosInf => "inf" | NegInf => "-inf" end.

(** [format(v, spec)].  [None] accepts only the empty specification; a
    [str] rejects the comma and the float type code. *)
Definition py_format (spec : fspec) (v : pyval) : exn + string :=
  match v, spec with
  | PyInt z, Plain => inr (int_plain z)
  | PyInt z, Comma => inr (int_comma z)
  | PyInt z, Comma2f =>
      match float_of_int z with inl e => inl e | inr q => inr (fixed2 true q) end
  | PyInt z, Fixed2f =>
      match float_of_int z with inl e => inl e | inr q => inr (fixed2 false q) end
  | PyFloat f, Plain => inr (repr f)
  | PyFloat f, Comma => inr (repr_comma (repr f))
  | PyFloat f, Comma2f => inr (fixed2 true (exact f))
  | PyFloat f, Fixed2f => inr (fixed2 false (exact f))
  | PyNonFinite n, _ => inr (nonfinite_text n)
  | PyNone, Plain => inr "None"
  | PyNone, _ => inl TypeError
  | PyStr s, Plain => inr s
  | PyStr _, _ => inl ValueError
  end.

(** ** Data frames *)

Record dataframe : Type := {
  columns : list string;
  rows : list (list pyval)
}.

(** [df.empty]: some axis has length zero. *)
Definition df_empty (df : dataframe) : bool :=
  match rows df, columns df with
  | [], _ => true
  | _, [] => true
  | _, _ => false
  end.

(** [df.iloc[i, j]]; out of bounds is an [IndexError]. *)
Definition iloc_cell (df : dataframe) (i j : nat) : exn + pyval :=
  if (j <? length (columns df))%nat then
    match nth_error (rows df) i with
    | Some row =>
        match nth_error row j with
        | Some v => inr v
        | None => inl IndexError
        end
    | None => inl IndexError
    end
  else inl IndexError.

(** ** What a run does: events and outcomes *)

Inductive chart_kind : Type := Bar | Line.

(** A Plotly Express figure, as far as the script sets it up. *)
Record figure : Type := {
  kind : chart_kind;
  data : dataframe;
  x_col : string;
  y_col : string;
  title : string;
  tickangle : option Z
}.

(** Where an element is drawn: the page body, the sidebar, or a column
    of the latest [st.columns] row (numbered from 0). *)
Inductive container : Type := Page | Sidebar | Column (i : nat).

Inductive element : Type :=
| Title (s : string)
| Markdown (s : string)
| Success (s : string)
| Error (msg icon : string)
| Selectbox (label : string) (options : list string)
| Header (s : string)
| Subheader (s : string)
| Info (s : string)
| Columns (n : nat)
| Metric (label value : string)
| PlotlyChart (fig : figure) (use_container_width : bool)
| Dataframe (df : dataframe).

Inductive event : Type :=
| Draw (c : container) (e : element)
| Connect (name type : string)
| Query (sql : string) (ttl : option Z).

(** How a script, or a part of it, ends: normally with a value, with an
    exception that nothing caught, or by [st.stop()]. *)
Inductive outcome (A : Type) : Type :=
| Done (a : A)
| Raised (e : exn)
| Stopped.
Arguments Done {A} a.
Arguments Raised {A} e.
Arguments Stopped {A}.

(** A computation: how it ends and the events it caused, in order. *)
Definition M (A : Type) : Type := (outcome A * list event)%type.

Definition ret {A} (a : A) : M A := (Done a, []).

Definition bind {A B} (m : M A) (k : A -> M B) : M B :=
  match m with
  | (Done a, t) => let (o, t') := k a in (o, t ++ t')
  | (Raised e, t) => (Raised e, t)
  | (Stopped, t) => (Stopped, t)
  end.

Declare Scope script_scope.
Delimit Scope script_scope with script.
Notation "x <- m ;; k" := (bind m (fun x => k))
  (at level 61, m at next level, right associativity) : script_scope.
Notation "m ;; k" := (bind m (fun _ => k))
  (at level 61, right associativity) : script_scope.
Open Scope script_scope.

Definition ending {A} (m : M A) : outcome A := fst m.
Definition trace {A} (m : M A) : list event := snd m.

Definition emit (e : event) : M unit := (Done tt, [e]).
Definition raise {A} (e : exn) : M A := (Raised e, []).
Definition lift {A} (r : exn + A) : M A :=
  match r with inl e => raise e | inr a => ret a end.

(** [try: body / except Exception as e: handler e]; [st.stop()] is not
    an [Exception] and passes through. *)
Definition try_except {A} (body : M A) (handler : exn -> M A) : M A :=
  match body with
  | (Raised e, t) => let (o, t') := handler e in (o, t ++ t')
  | other => other
  end.

(** [with col: body]: what [body] draws on the page goes to [col]. *)
Definition place (col : container) (e : event) : event :=
  match e with
  | Draw Page el => Draw col el
  | other => other
  end.

Definition within {A} (col : container) (body : M A) : M A :=
  (fst body, map (place col) (snd body)).

(** ** The outside: Streamlit, the database, Plotly *)

Record connection : Type := {
  run_query : string -> option Z -> exn + dataframe
}.

Record world : Type := {
  st_connection : string -> string -> exn + connection;
  selectbox_answer : string -> list string -> string
}.

Definition draw (el : element) : M unit := emit (Draw Page el).

Definition st_title s := draw (Title s).
Definition st_markdown s := draw (Markdown s).
Definition st_success s := draw (Success s).
Definition st_error msg icon := draw (Error msg icon).
Definition st_header s := draw (Header s).
Definition st_subheader s := draw (Subheader s).
Definition st_info s := draw (Info s).
Definition st_columns n := draw (Columns n).
Definition st_metric label value := draw (Metric label value).
Definition st_plotly_chart fig ucw := draw (PlotlyChart fig ucw).
Definition st_dataframe df := draw (Dataframe df).
Definition st_stop {A} : M A := (Stopped, []).

Definition st_sidebar_title s := emit (Draw Sidebar (Title s)).

Definition st_sidebar_selectbox (w : world) (label : string)
    (options : list string) : M string :=
  emit (Draw Sidebar (Selectbox label options)) ;;
  ret (selectbox_answer w label options).

Definition connect (w : world) (name type : string) : M connection :=
  emit (Connect name type) ;;
  lift (st_connection w name type).

(** [conn.query(sql, ttl=...)]. *)
Definition conn_query (conn : connection) (sql : string) (ttl : option Z)
    : M dataframe :=
  emit (Query sql ttl) ;;
  lift (run_query conn sql ttl).

Definition iloc (df : dataframe) (i j : nat) : M pyval := lift (iloc_cell df i j).
Definition format (v : pyval) (spec : fspec) : M string := lift (py_format spec v).

Definition has_column (df : dataframe) (c : string) : bool :=
  existsb (String.eqb c) (columns df).

(** [px.bar] and [px.line] refuse a column name the frame does not
    have. *)
Definition px (k : chart_kind) (df : dataframe) (x y ttl : string) : M figure :=
  if has_column df x && has_column df y
  then ret {| kind := k; data := df; x_col := x; y_col := y;
              title := ttl; tickangle := None |}
  else raise ValueError.

Definition px_bar := px Bar.
Definition px_line := px Line.

Definition update_xaxes (fig : figure) (angle : Z) : figure :=
  {| kind := kind fig; data := data fig; x_col := x_col fig;
     y_col := y_col fig; title := title fig; tickangle := Some angle |}.

(** ** The script's string constants *)

Definition nl : string := String (ascii_of_nat 10) EmptyString.
Definition dq : string := String (ascii_of_nat 34) EmptyString.

(** [quoted s] is [s] between double quotes. *)
Definition quoted (s : string) : string := (dq ++ s ++ dq)%string.

(** A triple-quoted literal, given line by line. *)
Definition triple_quoted (ls : list string) : string := String.concat nl ls.

Definition customers_by_state_sql : string :=
  triple_quoted
    [ "";
      ("        SELECT customer_state AS " ++ quoted "State"
         ++ ", COUNT(*) AS " ++ quoted "Customer Count")%string;
      "        FROM customers";
      "        GROUP BY customer_state";
      ("        ORDER BY " ++ quoted "Customer Count" ++ " DESC")%string;
      "        LIMIT 10";
      "        " ].

Definition orders_by_status_sql : string :=
  triple_quoted
    [ "";
      ("        SELECT order_status AS " ++ quoted "Status"
         ++ ", COUNT(DISTINCT order_id) AS " ++ quoted "Count" ++ " ")%string;
      "        FROM orders ";
      "        GROUP BY order_status ";
      ("        ORDER BY " ++ quoted "Count" ++ " DESC")%string;
      "        " ].

Definition orders_over_time_sql : string :=
  triple_quoted
    [ "";
      "        SELECT ";
      ("            TO_CHAR(order_purchase_timestamp::TIMESTAMP, 'YYYY-MM') AS "
         ++ quoted "Month" ++ ",")%string;
      ("            COUNT(DISTINCT order_id) AS " ++ quoted "Order Count")%string;
      "        FROM orders";
      ("        GROUP BY " ++ quoted "Month")%string;
      ("        ORDER BY " ++ quoted "Month")%string;
      "        " ].

Definition revenue_by_category_sql : string :=
  triple_quoted
    [ "";
      "        SELECT ";
      ("            p." ++ quoted "product category" ++ " AS "
         ++ quoted "Category" ++ ",")%string;
      ("            ROUND(SUM(pay.payment_value)::NUMERIC, 2) AS "
         ++ quoted "Revenue")%string;
      "        FROM products p";
      "        JOIN order_items oi ON p.product_id = oi.product_id";
      "        JOIN payments pay ON oi.order_id = pay.order_id";
      ("        GROUP BY " ++ quoted "Category")%string;
      ("        ORDER BY " ++ quoted "Revenue" ++ " DESC")%string;
      "        LIMIT 10";
      "        " ].

Definition monthly_trend_sql : string :=
  triple_quoted
    [ "";
      "        SELECT ";
      ("            TO_CHAR(o.order_purchase_timestamp::TIMESTAMP, 'YYYY-MM') AS "
         ++ quoted "Month" ++ ",")%string;
      ("            ROUND(SUM(p.payment_value)::NUMERIC, 2) AS "
         ++ quoted "Revenue" ++ ",")%string;
      ("            COUNT(DISTINCT o.order_id) AS " ++ quoted "Order Count")%string;
      "        FROM (SELECT DISTINCT order_id, order_purchase_timestamp FROM orders) o";
      "        JOIN payments p ON o.order_id = p.order_id";
      ("        GROUP BY " ++ quoted "Month")%string;
      ("        ORDER BY " ++ quoted "Month")%string;
      "        " ].

Definition connection_error_message : string :=
  "❌ Unable to connect to database. Please check your connection settings in .streamlit/secrets.toml".

Definition analysis_types : list string :=
  [ " Overview";
    " Customer Analysis";
    " Order Analysis";
    " Sales & Revenue";
    " Time Series Analysis" ].

(** The names the script gives to the columns of a [st.columns] row. *)
Definition col1 : container := Column 0.
Definition col2 : container := Column 1.
Definition col3 : container := Column 2.
Definition col4 : container := Column 3.
Definition col_a : container := Column 0.
Definition col_b : container := Column 1.

Definition ttl600 : option Z := Some 600.

(** ** The branches of [main] *)

(** [if analysis_type == " Overview":] *)
Definition overview (conn : connection) : M unit :=
  st_header "Dashboard Overview" ;;
  st_columns 4 ;;
  within col1 (
    df <- conn_query conn "SELECT COUNT(customer_id) FROM customers" ttl600 ;;
    v <- iloc df 0 0 ;;
    s <- format v Comma ;;
    st_metric "Total Customers" s) ;;
  within col2 (
    df <- conn_query conn "SELECT COUNT(DISTINCT order_id) FROM orders" ttl600 ;;
    v <- iloc df 0 0 ;;
    s <- format v Comma ;;
    st_metric "Unique Orders" s) ;;
  within col3 (
    df <- conn_query conn "SELECT COUNT(*) FROM orders" ttl600 ;;
    v <- iloc df 0 0 ;;
    s <- format v Comma ;;
    st_metric "Order Records" s) ;;
  within col4 (
    df <- conn_query conn "SELECT ROUND(SUM(payment_value)::NUMERIC, 2) FROM payments" ttl600 ;;
    v <- iloc df 0 0 ;;
    s <- format v Comma2f ;;
    st_metric "Total Revenue" ("$" ++ s)%string) ;;
  st_markdown "---" ;;
  st_info " *Data Note*: 'Unique Orders' shows distinct business transactions, while 'Order Records' shows total database rows (including duplicates)." ;;
  st_columns 2 ;;
  within col_a (
    df <- conn_query conn "SELECT COUNT(DISTINCT customer_id) FROM orders" ttl600 ;;
    v <- iloc df 0 0 ;;
    s <- format v Comma ;;
    st_metric "Active Customers" s) ;;
  within col_b (
    df <- conn_query conn "SELECT ROUND(AVG(payment_value)::NUMERIC, 2) FROM payments" ttl600 ;;
    v <- iloc df 0 0 ;;
    s <- format v Comma2f ;;
    st_metric "Avg Order Value" ("$" ++ s)%string) ;;
  st_markdown "###  About This Dashboard" ;;
  st_markdown "This dashboard analyzes e-commerce data including:" ;;
  st_markdown "• *Customer Demographics*: Cities, states, and customer distribution" ;;
  st_markdown "• *Order Patterns*: Monthly trends, seasonal analysis" ;;
  st_markdown "• *Sales Performance*: Category-wise sales, revenue analysis" ;;
  st_markdown "• *Business Metrics*: Growth rates, retention, top performers" ;;
  st_markdown "Navigate through different sections using the sidebar to explore various aspects of the data.".

(** [elif analysis_type == " Customer Analysis":] *)
Definition customer_analysis (conn : connection) : M unit :=
  st_header "Customer Analysis" ;;
  df <- conn_query conn customers_by_state_sql ttl600 ;;
  if negb (df_empty df) then
    fig <- px_bar df "State" "Customer Count" "Top 10 States by Customer Count" ;;
    st_plotly_chart fig true ;;
    st_dataframe df
  else ret tt.

(** [elif analysis_type == " Order Analysis":], section by section. *)
Definition order_statistics (conn : connection) : M unit :=
  st_subheader "Order Statistics" ;;
  st_columns 4 ;;
  within col1 (
    df <- conn_query conn "SELECT COUNT(DISTINCT order_id) FROM orders" ttl600 ;;
    v <- iloc df 0 0 ;;
    s <- format v Comma ;;
    st_metric "Unique Orders" s) ;;
  within col2 (
    df <- conn_query conn "SELECT ROUND((COUNT(DISTINCT order_id) * 1.0 / COUNT(DISTINCT customer_id))::NUMERIC, 2) FROM orders" ttl600 ;;
    v <- iloc df 0 0 ;;
    s <- format v Fixed2f ;;
    st_metric "Orders per Customer" s) ;;
  within col3 (
    df <- conn_query conn "SELECT ROUND(AVG(payment_value)::NUMERIC, 2) FROM payments" ttl600 ;;
    v <- iloc df 0 0 ;;
    s <- format v Comma2f ;;
    st_metric "Avg Order Value" ("$" ++ s)%string) ;;
  within col4 (
    df <- conn_query conn "SELECT COUNT(DISTINCT product_id) FROM products" ttl600 ;;
    v <- iloc df 0 0 ;;
    s <- format v Comma ;;
    st_metric "Total Products" s).

Definition data_quality (conn : connection) : M unit :=
  st_subheader " Data Quality" ;;
  st_columns 2 ;;
  within col_a (
    df <- conn_query conn "SELECT COUNT(*) FROM orders" ttl600 ;;
    v <- iloc df 0 0 ;;
    s <- format v Comma ;;
    st_metric "Order Records" s) ;;
  within col_b (
    df <- conn_query conn "SELECT ROUND((COUNT(*) * 1.0 / COUNT(DISTINCT order_id))::NUMERIC, 1) FROM orders" ttl600 ;;
    v <- iloc df 0 0 ;;
    s <- format v Plain ;;
    st_metric "Duplicate Factor" (s ++ "x")%string) ;;
  st_info " *Note*: Each order appears multiple times in the database. This could be due to order updates, multiple items, or data import issues.".

Definition orders_by_status (conn : connection) : M unit :=
  st_subheader " Orders by Status" ;;
  df <- conn_query conn orders_by_status_sql ttl600 ;;
  if negb (df_empty df) then
    fig <- px_bar df "Status" "Count" "Unique Orders by Status" ;;
    let fig := update_xaxes fig 45 in
    st_plotly_chart fig true
  else ret tt.

Definition orders_over_time (conn : connection) : M unit :=
  st_subheader "📅 Orders Over Time" ;;
  df <- conn_query conn orders_over_time_sql ttl600 ;;
  if negb (df_empty df) then
    fig <- px_line df "Month" "Order Count" "Unique Orders Over Time" ;;
    st_plotly_chart fig true
  else ret tt.

Definition order_analysis (conn : connection) : M unit :=
  st_header "Order Analysis" ;;
  order_statistics conn ;;
  data_quality conn ;;
  orders_by_status conn ;;
  orders_over_time conn.

(** [elif analysis_type == " Sales & Revenue":] *)
Definition sales_revenue (conn : connection) : M unit :=
  st_header "Sales & Revenue Analysis" ;;
  df <- conn_query conn revenue_by_category_sql ttl600 ;;
  if negb (df_empty df) then
    fig <- px_bar df "Category" "Revenue" "Revenue by Product Category" ;;
    let fig := update_xaxes fig 45 in
    st_plotly_chart fig true ;;
    st_dataframe df
  else ret tt.

(** [elif analysis_type == " Time Series Analysis":] *)
Definition time_series (conn : connection) : M unit :=
  st_header "Time Series Analysis" ;;
  df <- conn_query conn monthly_trend_sql ttl600 ;;
  if negb (df_empty df) then
    st_columns 2 ;;
    within col1 (
      fig1 <- px_line df "Month" "Revenue" "Monthly Revenue Trend" ;;
      st_plotly_chart fig1 true) ;;
    within col2 (
      fig2 <- px_line df "Month" "Order Count" "Monthly Order Count" ;;
      st_plotly_chart fig2 true) ;;
    st_dataframe df
  else ret tt.

(** The [if]/[elif] chain; it has no [else]. *)
Definition dispatch (conn : connection) (analysis_type : string) : M unit :=
  if (analysis_type =? " Overview")%string then overview conn
  else if (analysis_type =? " Customer Analysis")%string then customer_analysis conn
  else if (analysis_type =? " Order Analysis")%string then order_analysis conn
  else if (analysis_type =? " Sales & Revenue")%string then sales_revenue conn
  else if (analysis_type =? " Time Series Analysis")%string then time_series conn
  else ret tt.

(** The footer and links section. *)
Definition footer : M unit :=
  st_markdown "---" ;;
  st_markdown "### 📊 Dashboard created using Streamlit" ;;
  st_markdown "Data source: E-commerce PostgreSQL Database" ;;
  st_markdown "---" ;;
  st_markdown "### 👨‍💻 Created by Punarbasu Chakraborty" ;;
  st_columns 3 ;;
  within col1 (
    st_markdown "🔗 *LinkedIn*" ;;
    st_markdown "[Connect with me](https://linkedin.com/in/punarbasu-chakraborty-628566252/)") ;;
  within col2 (
    st_markdown "🐙 *GitHub*" ;;
    st_markdown "[View my projects](https://github.com/punarchakra02)") ;;
  within col3 (
    st_markdown "📧 *Email*" ;;
    st_markdown "[Contact me](mailto:punarbasu02chakra@gmail.com)") ;;
  st_markdown "---" ;;
  st_markdown "Built with ❤ using Python, SQL & Streamlit".

(** ** [main] *)

Definition main (w : world) : M unit :=
  st_title "🛒 E-Commerce Data Analysis Dashboard" ;;
  st_markdown "---" ;;
  conn <- try_except
            (conn <- connect w "postgresql" "sql" ;;
             st_success "✅ Connected to database successfully!" ;;
             ret conn)
            (fun e =>
               st_error connection_error_message "🚨" ;;
               st_stop) ;;
  st_sidebar_title " Navigation" ;;
  analysis_type <- st_sidebar_selectbox w "Choose Analysis Type:" analysis_types ;;
  dispatch conn analysis_type ;;
  footer.

(** ** Reading a trace *)

(** The SQL texts sent to the database, in order. *)
Fixpoint queries (t : list event) : list string :=
  match t with
  | Query sql _ :: rest => sql :: queries rest
  | _ :: rest => queries rest
  | [] => []
  end.


Definition initial_segment {A} (l1 l2 : list A) : Prop :=
  exists rest, l2 = l1 ++ rest.

Definition fresh_for_600s (e : event) : Prop :=
  match e with
  | Query _ ttl => ttl = Some 600
  | _ => True
  end.

(** ** The reports and their queries *)

Inductive report : Type :=
| Overview
| CustomerAnalysis
| OrderAnalysis
| SalesRevenue
| TimeSeriesAnalysis.

Definition all_reports : list report :=
  [Overview; CustomerAnalysis; OrderAnalysis; SalesRevenue; TimeSeriesAnalysis].

Definition report_name (r : report) : string :=
  match r with
  | Overview => " Overview"
  | CustomerAnalysis => " Customer Analysis"
  | OrderAnalysis => " Order Analysis"
  | SalesRevenue => " Sales & Revenue"
  | TimeSeriesAnalysis => " Time Series Analysis"
  end.

(** The dispatch table: the queries of each report, in the order of the
    script. *)
Definition report_queries (r : report) : list string :=
  match r with
  | Overview =>
      [ "SELECT COUNT(customer_id) FROM customers";
        "SELECT COUNT(DISTINCT order_id) FROM orders";
        "SELECT COUNT(*) FROM orders";
        "SELECT ROUND(SUM(payment_value)::NUMERIC, 2) FROM payments";
        "SELECT COUNT(DISTINCT customer_id) FROM orders";
        "SELECT ROUND(AVG(payment_value)::NUMERIC, 2) FROM payments" ]
  | CustomerAnalysis => [ customers_by_state_sql ]
  | OrderAnalysis =>
      [ "SELECT COUNT(DISTINCT order_id) FROM orders";
        "SELECT ROUND((COUNT(DISTINCT order_id) * 1.0 / COUNT(DISTINCT customer_id))::NUMERIC, 2) FROM orders";
        "SELECT ROUND(AVG(payment_value)::NUMERIC, 2) FROM payments";
        "SELECT COUNT(DISTINCT product_id) FROM products";
        "SELECT COUNT(*) FROM orders";
        "SELECT ROUND((COUNT(*) * 1.0 / COUNT(DISTINCT order_id))::NUMERIC, 1) FROM orders";
        orders_by_status_sql;
        orders_over_time_sql ]
  | SalesRevenue => [ revenue_by_category_sql ]
  | TimeSeriesAnalysis => [ monthly_trend_sql ]
  end.

(** ** The chart panels *)

Inductive chart_panel : Type :=
| CustomersByState
| OrdersByStatus
| OrdersOverTime
| RevenueByCategory
| MonthlyTrend.

Definition panel_report (p : chart_panel) : report :=
  match p with
  | CustomersByState => CustomerAnalysis
  | OrdersByStatus | OrdersOverTime => OrderAnalysis
  | RevenueByCategory => SalesRevenue
  | MonthlyTrend => TimeSeriesAnalysis
  end.

Definition panel_sql (p : chart_panel) : string :=
  match p with
  | CustomersByState => customers_by_state_sql
  | OrdersByStatus => orders_by_status_sql
  | OrdersOverTime => orders_over_time_sql
  | RevenueByCategory => revenue_by_category_sql
  | MonthlyTrend => monthly_trend_sql
  end.

(** The part of the script that makes up the panel. *)
Definition panel (p : chart_panel) : connection -> M unit :=
  match p with
  | CustomersByState => customer_analysis
  | OrdersByStatus => orders_by_status
  | OrdersOverTime => orders_over_time
  | RevenueByCategory => sales_revenue
  | MonthlyTrend => time_series
  end.

(** The heading the panel starts with. *)
Definition panel_heading (p : chart_panel) : element :=
  match p with
  | CustomersByState => Header "Customer Analysis"
  | OrdersByStatus => Subheader " Orders by Status"
  | OrdersOverTime => Subheader "📅 Orders Over Time"
  | RevenueByCategory => Header "Sales & Revenue Analysis"
  | MonthlyTrend => Header "Time Series Analysis"
  end.

(** The titles of the charts the panel draws. *)
Definition panel_titles (p : chart_panel) : list string :=
  match p with
  | CustomersByState => ["Top 10 States by Customer Count"]
  | OrdersByStatus => ["Unique Orders by Status"]
  | OrdersOverTime => ["Unique Orders Over Time"]
  | RevenueByCategory => ["Revenue by Product Category"]
  | MonthlyTrend => ["Monthly Revenue Trend"; "Monthly Order Count"]
  end.

(** The other sections of the panel's report end normally. *)
Definition other_sections_done (p : chart_panel) (conn : connection) : Prop :=
  match p with
  | OrdersByStatus =>
      ending (order_statistics conn) = Done tt
      /\ ending (data_quality conn) = Done tt
      /\ ending (orders_over_time conn) = Done tt
  | OrdersOverTime =>
      ending (order_statistics conn) = Done tt
      /\ ending (data_quality conn) = Done tt
      /\ ending (orders_by_status conn) = Done tt
  | _ => True
  end.

Definition is_chart_of (p : chart_panel) (e : event) : Prop :=
  match e with
  | Draw _ (PlotlyChart fig _) => In (title fig) (panel_titles p)
  | _ => False
  end.

(** ** The metric panels *)

(** The format each metric query's first cell is put through. *)
Definition metric_format (sql : string) : option fspec :=
  if (sql =? "SELECT COUNT(customer_id) FROM customers")%string then Some Comma
  else if (sql =? "SELECT COUNT(DISTINCT order_id) FROM orders")%string then Some Comma
  else if (sql =? "SELECT COUNT(*) FROM orders")%string then Some Comma
  else if (sql =? "SELECT ROUND(SUM(payment_value)::NUMERIC, 2) FROM payments")%string then Some Comma2f
  else if (sql =? "SELECT COUNT(DISTINCT customer_id) FROM orders")%string then Some Comma
  else if (sql =? "SELECT ROUND(AVG(payment_value)::NUMERIC, 2) FROM payments")%string then Some Comma2f
  else if (sql =? "SELECT ROUND((COUNT(DISTINCT order_id) * 1.0 / COUNT(DISTINCT customer_id))::NUMERIC, 2) FROM orders")%string then Some Fixed2f
  else if (sql =? "SELECT COUNT(DISTINCT product_id) FROM products")%string then Some Comma
  else if (sql =? "SELECT ROUND((COUNT(*) * 1.0 / COUNT(DISTINCT order_id))::NUMERIC, 1) FROM orders")%string then Some Plain
  else None.

(** The exception a metric panel runs into on the frame [df], if any:
    reading the first cell, then formatting it. *)
Definition metric_failure (spec : fspec) (df : dataframe) : option exn :=
  match iloc_cell df 0 0 with
  | inl e => Some e
  | inr v => match py_format spec v with inl e => Some e | inr _ => None end
  end.

Definition count_labels : list string :=
  ["Total Customers"; "Unique Orders"; "Order Records"; "Active Customers";
   "Total Products"].

Definition currency_labels : list string :=
  ["Total Revenue"; "Avg Order Value"].

Definition ratio_labels : list string :=
  ["Orders per Customer"; "Duplicate Factor"].

(** ** Shapes of formatted numbers *)

(** Read from the right: groups of exactly three digits, each followed
    by a comma, then a last group of one to three digits. *)
Fixpoint grouped_from_right (r : list ascii) : bool :=
  match r with
  | [a] => is_digit a
  | [a; b] => is_digit a && is_digit b
  | [a; b; c] => is_digit a && is_digit b && is_digit c
  | a :: b :: c :: sep :: rest =>
      is_digit a && is_digit b && is_digit c && Ascii.eqb sep ","
      && grouped_from_right rest
  | [] => false
  end.

Definition grouped (cs : list ascii) : bool := grouped_from_right (rev cs).

Definition unsigned (cs : list ascii) : list ascii :=
  match cs with
  | "-"%char :: rest => rest
  | _ => cs
  end.

(** Up to the first ".", and after it. *)
Fixpoint at_point (cs : list ascii) : list ascii * option (list ascii) :=
  match cs with
  | [] => ([], None)
  | c :: rest =>
      if Ascii.eqb c "." then ([], Some rest)
      else let (w, f) := at_point rest in (c :: w, f)
  end.

(** "1,234,567" and "-12": an integer with thousands separators. *)
Definition well_grouped (s : string) : bool := grouped (unsigned (chars s)).

(** "$1,234.50": dollars with thousands separators and exactly two
    decimals. *)
Definition dollar_format (s : string) : bool :=
  match chars s with
  | "$"%char :: rest =>
      match at_point rest with
      | (whole, Some [d1; d2]) =>
          grouped (unsigned whole) && is_digit d1 && is_digit d2
      | _ => false
      end
  | _ => false
  end.

(** The least a number with thousands separators must satisfy: after an
    optional "$" and "-", no more than three digits before the first
    character that is not a digit. *)
Definition thousands_separated (s : string) : bool :=
  let cs := match chars s with "$"%char :: rest => rest | cs => cs end in
  let (ds, _) := span_digits (unsigned cs) in
  match ds with
  | _ :: _ :: _ :: _ :: _ => false
  | _ => true
  end.

(** ** Read-only SQL *)

Definition is_word_char (c : ascii) : bool :=
  let n := nat_of_ascii c in
  (((65 <=? n) && (n <=? 90)) || ((97 <=? n) && (n <=? 122))
   || ((48 <=? n) && (n <=? 57)) || (n =? 95))%nat.

Definition upper (c : ascii) : ascii :=
  let n := nat_of_ascii c in
  if ((97 <=? n) && (n <=? 122))%nat then ascii_of_nat (n - 32) else c.

(** The words of a statement, in upper case. *)
Fixpoint sql_words_from (cs : list ascii) (word : list ascii) : list string :=
  let close := match word with [] => [] | _ => [text (rev word)] end in
  match cs with
  | [] => close
  | c :: rest =>
      if is_word_char c then sql_words_from rest (upper c :: word)
      else close ++ sql_words_from rest []
  end.

Definition sql_words (sql : string) : list string := sql_words_from (chars sql) [].

Definition writing_words : list string :=
  ["INSERT"; "UPDATE"; "DELETE"; "MERGE"; "TRUNCATE"; "INTO"; "COPY"; "CALL";
   "CREATE"; "ALTER"; "DROP"; "GRANT"; "REVOKE"; "COMMENT"; "REINDEX"; "VACUUM"].

Definition mentions (ws : list string) (w : string) : bool :=
  existsb (String.eqb w) ws.

(** One statement that starts with SELECT and names no writing or
    schema-changing command. *)
Definition read_only (sql : string) : bool :=
  match sql_words sql with
  | first :: _ => (first =? "SELECT")%string
  | [] => false
  end
  && negb (existsb (mentions (sql_words sql)) writing_words)
  && negb (existsb (Ascii.eqb ";") (chars sql)).

Definition reads_only (e : event) : Prop :=
  match e with
  | Query sql _ => read_only sql = true
  | _ => True
  end.

(** ** Sample worlds *)

Definition scalar (name : string) (v : pyval) : dataframe :=
  {| columns := [name]; rows := [[v]] |}.

Definition float (q : Q) (r : string) : pyval :=
  PyFloat {| exact := q; repr := r |}.

Fixpoint answer (tables : list (string * dataframe)) (sql : string)
    : exn + dataframe :=
  match tables with
  | (q, df) :: rest => if (q =? sql)%string then inr df else answer rest sql
  | [] => inl (OtherError "ProgrammingError")
  end.

(** A database that answers the listed queries and rejects the rest. *)
Definition database (tables : list (string * dataframe)) : connection :=
  {| run_query := fun sql _ => answer tables sql |}.

Definition world_of (conn : exn + connection) (selection : string) : world :=
  {| st_connection := fun _ _ => conn;
     selectbox_answer := fun _ _ => selection |}.

(** 100 customers, 50 orders in 120 order rows, payments of 5000.00. *)
Definition shop_tables : list (string * dataframe) :=
    [ ("SELECT COUNT(customer_id) FROM customers", scalar "count" (PyInt 100));
      ("SELECT COUNT(DISTINCT order_id) FROM orders", scalar "count" (PyInt 50));
      ("SELECT COUNT(*) FROM orders", scalar "count" (PyInt 120));
      ("SELECT ROUND(SUM(payment_value)::NUMERIC, 2) FROM payments",
       scalar "round" (float (5000 # 1) "5000.0"));
      ("SELECT COUNT(DISTINCT customer_id) FROM orders", scalar "count" (PyInt 40));
      ("SELECT ROUND(AVG(payment_value)::NUMERIC, 2) FROM payments",
       scalar "round" (float (100 # 1) "100.0"));
      ("SELECT ROUND((COUNT(DISTINCT order_id) * 1.0 / COUNT(DISTINCT customer_id))::NUMERIC, 2) FROM orders",
       scalar "round" (float (125 # 100) "1.25"));
      ("SELECT COUNT(DISTINCT product_id) FROM products", scalar "count" (PyInt 30));
      ("SELECT ROUND((COUNT(*) * 1.0 / COUNT(DISTINCT order_id))::NUMERIC, 1) FROM orders",
       scalar "round" (float (24 # 10) "2.4"));
      (customers_by_state_sql,
       {| columns := ["State"; "Customer Count"];
          rows := [[PyStr "SP"; PyInt 60]; [PyStr "RJ"; PyInt 40]] |});
      (orders_by_status_sql,
       {| columns := ["Status"; "Count"];
          rows := [[PyStr "delivered"; PyInt 45]; [PyStr "shipped"; PyInt 5]] |});
      (orders_over_time_sql,
       {| columns := ["Month"; "Order Count"];
          rows := [[PyStr "2018-01"; PyInt 20]; [PyStr "2018-02"; PyInt 30]] |});
      (revenue_by_category_sql,
       {| columns := ["Category"; "Revenue"];
          rows := [[PyStr "toys"; float (3000 # 1) "3000.0"];
                   [PyStr "books"; float (2000 # 1) "2000.0"]] |});
      (monthly_trend_sql,
       {| columns := ["Month"; "Revenue"; "Order Count"];
          rows := [[PyStr "2018-01"; float (2000 # 1) "2000.0"; PyInt 20];
                   [PyStr "2018-02"; float (3000 # 1) "3000.0"; PyInt 30]] |}) ].

Definition shop : connection := database shop_tables.

(** Every table empty: counts are 0, sums and averages are NULL, the
    grouped queries return no rows.  (The two ratio queries divide by
    zero and are rejected by the database.) *)
Definition empty_shop : connection :=
  database
    [ ("SELECT COUNT(customer_id) FROM customers", scalar "count" (PyInt 0));
      ("SELECT COUNT(DISTINCT order_id) FROM orders", scalar "count" (PyInt 0));
      ("SELECT COUNT(*) FROM orders", scalar "count" (PyInt 0));
      ("SELECT ROUND(SUM(payment_value)::NUMERIC, 2) FROM payments",
       scalar "round" PyNone);
      ("SELECT COUNT(DISTINCT customer_id) FROM orders", scalar "count" (PyInt 0));
      ("SELECT ROUND(AVG(payment_value)::NUMERIC, 2) FROM payments",
       scalar "round" PyNone);
      ("SELECT COUNT(DISTINCT product_id) FROM products", scalar "count" (PyInt 0));
      (customers_by_state_sql,
       {| columns := ["State"; "Customer Count"]; rows := [] |});
      (orders_by_status_sql,
       {| columns := ["Status"; "Count"]; rows := [] |});
      (orders_over_time_sql,
       {| columns := ["Month"; "Order Count"]; rows := [] |});
      (revenue_by_category_sql,
       {| columns := ["Category"; "Revenue"]; rows := [] |});
      (monthly_trend_sql,
       {| columns := ["Month"; "Revenue"; "Order Count"]; rows := [] |}) ].

(** The shop, except that the two grouped order queries return no
    rows. *)
Definition shop_without_order_rows : connection :=
  database
    ([ (orders_by_status_sql, {| columns := ["Status"; "Count"]; rows := [] |});
       (orders_over_time_sql, {| columns := ["Month"; "Order Count"]; rows := [] |}) ]
     ++ shop_tables).

(** The shop, except that two customers placed 2469 orders between
    them. *)
Definition wholesale : connection :=
  database
    ([ ("SELECT COUNT(DISTINCT order_id) FROM orders", scalar "count" (PyInt 2469));
       ("SELECT ROUND((COUNT(DISTINCT order_id) * 1.0 / COUNT(DISTINCT customer_id))::NUMERIC, 2) FROM orders",
        scalar "round" (float (12345 # 10) "1234.5"));
       ("SELECT COUNT(DISTINCT customer_id) FROM orders", scalar "count" (PyInt 2)) ]
     ++ shop_tables).

(** What [main] causes before the dispatch when the connection opens,
    and what the footer draws. *)
Definition page_top : list event :=
  [ Draw Page (Title "🛒 E-Commerce Data Analysis Dashboard");
    Draw Page (Markdown "---");
    Connect "postgresql" "sql";
    Draw Page (Success "✅ Connected to database successfully!");
    Draw Sidebar (Title " Navigation");
    Draw Sidebar (Selectbox "Choose Analysis Type:" analysis_types) ].

Definition page_footer : list event := trace footer.
(** ** Properties of a computation, for the proofs *)

(** Every event the computation causes satisfies [S]. *)
Definition emits {A} (S : event -> Prop) (m : M A) : Prop :=
  Forall S (trace m).

(** [S] does not depend on where an element is drawn. *)
Definition placement_blind (S : event -> Prop) : Prop :=
  forall c e, S e -> S (place c e).

(** The computation sends a beginning of the list [qs] to the database,
    and all of it when it ends normally. *)
Definition issues {A} (qs : list string) (m : M A) : Prop :=
  initial_segment (queries (trace m)) qs
  /\ forall a, ending m = Done a -> queries (trace m) = qs.



(** Every metric drawn carries thousands separators. *)
Definition every_metric_separated (t : list event) : Prop :=
  forall c label value,
    In (Draw c (Metric label value)) t -> thousands_separated value = true.

(** The answer to the metric query [sql] makes its panel raise [e]. *)
Definition metric_breaks (conn : connection) (sql : string) (e : exn) : Prop :=
  exists spec df,
    metric_format sql = Some spec
    /\ run_query conn sql (Some 600) = inr df
    /\ metric_failure spec df = Some e.

(** The run ends with exception [e], right after sending [sql]. *)
Definition raises_after {A} (m : M A) (sql : string) (e : exn) : Prop :=
  ending m = Raised e /\ exists t, trace m = t ++ [Query sql (Some 600)].

(** A computation that sends such a query raises right after it. *)
Definition stops_at_break {A} (conn : connection) (m : M A) : Prop :=
  forall sql e,
    metric_breaks conn sql e ->
    In (Query sql (Some 600)) (trace m) ->
    raises_after m sql e.

Definition digit_or_comma (c : ascii) : Prop :=
  is_digit c = true \/ c = ","%char.

(** [two_digits] gives exactly two digits for [k]. *)
Definition two_digits_ok (k : nat) : bool :=
  match two_digits (Z.of_nat k) with
  | [d1; d2] => is_digit d1 && is_digit d2
  | _ => false
  end.

(** Every currency metric drawn is in the dollar format. *)
Definition every_currency_in_dollar_format (t : list event) : Prop :=
  forall c label value,
    In (Draw c (Metric label value)) t -> In label currency_labels ->
    dollar_format value = true.

(** An int or a finite float. *)
Definition finite_number (v : pyval) : Prop :=
  match v with
  | PyInt _ | PyFloat _ => True
  | _ => False
  end.

(** "1234.50" and "-0.07": digits, a point and exactly two decimals,
    with no separator. *)
Definition plain_two_decimals (s : string) : bool :=
  match at_point (chars s) with
  | (whole, Some [d1; d2]) =>
      match unsigned whole with
      | [] => false
      | ds => forallb is_digit ds
      end
      && is_digit d1 && is_digit d2
  | _ => false
  end.

(** The sections of the panel's report that run before the panel and
    after it. *)
Definition sections_before (p : chart_panel) (conn : connection) : M unit :=
  match p with
  | OrdersByStatus =>
      st_header "Order Analysis" ;;
      order_statistics conn ;;
      data_quality conn
  | OrdersOverTime =>
      st_header "Order Analysis" ;;
      order_statistics conn ;;
      data_quality conn ;;
      orders_by_status conn
  | _ => ret tt
  end.

Definition sections_after (p : chart_panel) (conn : connection) : M unit :=
  match p with
  | OrdersByStatus => orders_over_time conn
  | _ => ret tt
  end.

(** The shop with a payment whose value is NaN: the sum and the average
    of the payments are NaN. *)
Definition shop_with_nan_payment : connection :=
  database
    ([ ("SELECT ROUND(SUM(payment_value)::NUMERIC, 2) FROM payments",
        scalar "round" (PyNonFinite NaN));
       ("SELECT ROUND(AVG(payment_value)::NUMERIC, 2) FROM payments",
        scalar "round" (PyNonFinite NaN)) ]
     ++ shop_tables).

(** A connection to a server that cannot be reached: [st.connection]
    hands it out without contacting the server, and every query on it
    fails. *)
Definition unreachable : connection :=
  {| run_query := fun _ _ => inl (OtherError "OperationalError") |}.

(** ** More readings of a run *)

(** The header each report starts with. *)
Definition report_header (r : report) : string :=
  match r with
  | Overview => "Dashboard Overview"
  | CustomerAnalysis => "Customer Analysis"
  | OrderAnalysis => "Order Analysis"
  | SalesRevenue => "Sales & Revenue Analysis"
  | TimeSeriesAnalysis => "Time Series Analysis"
  end.

Definition only_header (h : string) (e : event) : Prop :=
  match e with
  | Draw _ (Header h') => h' = h
  | _ => True
  end.

(** The last line of the footer. *)
Definition closing_line : event :=
  Draw Page (Markdown "Built with ❤ using Python, SQL & Streamlit").

Definition not_closing_line (e : event) : Prop := e <> closing_line.

(** A computation that sends a query the database rejects raises the
    database's exception right after it. *)
Definition stops_at_rejection {A} (conn : connection) (m : M A) : Prop :=
  forall sql e,
    run_query conn sql (Some 600) = inl e ->
    In (Query sql (Some 600)) (trace m) ->
    raises_after m sql e.

(** A chart is drawn over the full width from a frame that is not empty
    and has both of its axis columns; a table is drawn from a frame that
    is not empty. *)
Definition drawn_from_data (e : event) : Prop :=
  match e with
  | Draw _ (PlotlyChart fig ucw) =>
      df_empty (data fig) = false
      /\ has_column (data fig) (x_col fig) = true
      /\ has_column (data fig) (y_col fig) = true
      /\ ucw = true
  | Draw _ (Dataframe df) => df_empty df = false
  | _ => True
  end.

(** No text occurs twice. *)
Fixpoint distinct (l : list string) : bool :=
  match l with
  | [] => true
  | s :: rest => negb (existsb (String.eqb s) rest) && distinct rest
  end.

(** ** What a metric shows *)

(** The query behind each metric label; a label shared by two reports
    has the same query in both. *)
Definition metric_query (label : string) : option string :=
  if (label =? "Total Customers")%string then
    Some "SELECT COUNT(customer_id) FROM customers"
  else if (label =? "Unique Orders")%string then
    Some "SELECT COUNT(DISTINCT order_id) FROM orders"
  else if (label =? "Order Records")%string then
    Some "SELECT COUNT(*) FROM orders"
  else if (label =? "Total Revenue")%string then
    Some "SELECT ROUND(SUM(payment_value)::NUMERIC, 2) FROM payments"
  else if (label =? "Active Customers")%string then
    Some "SELECT COUNT(DISTINCT customer_id) FROM orders"
  else if (label =? "Avg Order Value")%string then
    Some "SELECT ROUND(AVG(payment_value)::NUMERIC, 2) FROM payments"
  else if (label =? "Orders per Customer")%string then
    Some "SELECT ROUND((COUNT(DISTINCT order_id) * 1.0 / COUNT(DISTINCT customer_id))::NUMERIC, 2) FROM orders"
  else if (label =? "Total Products")%string then
    Some "SELECT COUNT(DISTINCT product_id) FROM products"
  else if (label =? "Duplicate Factor")%string then
    Some "SELECT ROUND((COUNT(*) * 1.0 / COUNT(DISTINCT order_id))::NUMERIC, 1) FROM orders"
  else None.

(** The literal text the f-string puts around the formatted cell. *)
Definition decorate (label s : string) : string :=
  if existsb (String.eqb label) currency_labels then ("$" ++ s)%string
  else if (label =? "Duplicate Factor")%string then (s ++ "x")%string
  else s.

(** The metric [label] with text [value] is the first cell of the answer
    to the label's query, put through the query's format. *)
Definition shows_first_cell (conn : connection) (label value : string) : Prop :=
  exists sql spec df v s,
    metric_query label = Some sql
    /\ metric_format sql = Some spec
    /\ run_query conn sql (Some 600) = inr df
    /\ iloc_cell df 0 0 = inr v
    /\ py_format spec v = inr s
    /\ value = decorate label s.

Definition metric_from_cell (conn : connection) (e : event) : Prop :=
  match e with
  | Draw _ (Metric label value) => shows_first_cell conn label value
  | _ => True
  end.

(** Reading a formatted number back. *)
Definition without_commas (cs : list ascii) : list ascii :=
  filter (fun c => negb (Ascii.eqb c ",")) cs.

Definition read_digits (cs : list ascii) : option N :=
  option_map N.of_uint (NilZero.uint_of_string (text cs)).

Definition is_negative (cs : list ascii) : bool :=
  match cs with
  | "-"%char :: _ => true
  | _ => false
  end.

(** The integer a text such as "-1,234,567" denotes. *)
Definition shown_integer (s : string) : option Z :=
  let cs := chars s in
  match read_digits (without_commas (unsigned cs)) with
  | Some n => Some (if is_negative cs then - Z.of_N n else Z.of_N n)
  | None => None
  end.

(** The amount a text such as "$1,234.50" denotes. *)
Definition shown_amount (s : string) : option Q :=
  match chars s with
  | "$"%char :: rest =>
      match at_point rest with
      | (whole, Some [d1; d2]) =>
          match read_digits (without_commas (unsigned whole)),
                read_digits [d1; d2] with
          | Some a, Some b =>
              let cents := Z.of_N (a * 100 + b) in
              Some ((if is_negative whole then - cents else cents) # 100)
          | _, _ => None
          end
      | _ => None
      end
  | _ => None
  end.

Definition two_digits_read (k : nat) : bool :=
  match read_digits (two_digits (Z.of_nat k)) with
  | Some n => N.eqb n (N.of_nat k)
  | None => false
  end.

(** ** The module around [main]

    Before it defines [main] the module sets the page up and injects a
    style sheet; its last statement looks up a name and, when that is
    the text "_main_", calls [main]. *)

Inductive module_event : Type :=
| SetPageConfig (page_title page_icon layout initial_sidebar_state : string)
| MarkdownHtml (body : string) (unsafe_allow_html : bool)
| InMain (e : event).

Definition page_css : string :=
  triple_quoted
    [ "";
      "<style>";
      "    .metric-card {";
      "        background-color: #f0f2f6;";
      "        padding: 1rem;";
      "        border-radius: 0.5rem;";
      "        margin: 0.5rem 0;";
      "    }";
      "    .stSelectbox {";
      "        margin-bottom: 1rem;";
      "    }";
      "</style>";
      "" ].

(** What a global name is bound to. *)
Inductive binding : Type :=
| Imported (what : string)
| Function (body : world -> M unit)
| Text (s : string).

(** The names the module binds itself, by its imports and its [def]. *)
Definition module_bindings : list (string * binding) :=
  [ ("st", Imported "streamlit");
    ("pd", Imported "pandas");
    ("psycopg2", Imported "psycopg2");
    ("datetime", Imported "datetime.datetime");
    ("px", Imported "plotly.express");
    ("go", Imported "plotly.graph_objects");
    ("main", Function main) ].

Fixpoint bound (bs : list (string * binding)) (name : string) : option binding :=
  match bs with
  | (n, b) :: rest => if (n =? name)%string then Some b else bound rest name
  | [] => None
  end.

(** Reading a global name: the module's own bindings, then the names the
    runtime provides (the module attributes it sets and the builtins);
    a name found in neither is a [NameError]. *)
Definition load_name (provided : string -> option binding) (name : string)
    : exn + binding :=
  match bound module_bindings name with
  | Some b => inr b
  | None =>
      match provided name with
      | Some b => inr b
      | None => inl (OtherError "NameError")
      end
  end.

Definition is_text (b : binding) (s : string) : bool :=
  match b with
  | Text s' => (s' =? s)%string
  | _ => false
  end.

Definition module_setup : list module_event :=
  [ SetPageConfig "E-Commerce Analysis Dashboard" "📊" "wide" "expanded";
    MarkdownHtml page_css true ].

(** The module from top to bottom. *)
Definition module_body (provided : string -> option binding) (w : world)
    : outcome unit * list module_event :=
  match load_name provided "_name_" with
  | inl e => (Raised e, module_setup)
  | inr b =>
      if is_text b "_main_"
      then (ending (main w), module_setup ++ map InMain (trace (main w)))
      else (Done tt, module_setup)
  end.

(** The names a Python runtime provides to a script run as the main
    module, as far as the samples need them. *)
Definition python_names (name : string) : option binding :=
  if (name =? "__name__")%string then Some (Text "__main__")
  else if (name =? "__doc__")%string then Some (Text "")
  else if (name =? "__file__")%string then Some (Text "app.py")
  else None.
(** * Proofs *)

(** ** Sequencing *)

Lemma bind_done {A B} (a : A) (t : list event) (k : A -> M B) :
  bind (Done a, t) k = (ending (k a), t ++ trace (k a)).
Proof. unfold bind, ending, trace. destruct (k a); reflexivity. Qed.

Lemma bind_split {A B} (m : M A) (k : A -> M B) (a : A) :
  ending m = Done a ->
  bind m k = (ending (k a), trace m ++ trace (k a)).
Proof.
  destruct m as [o t]; unfold ending at 1; simpl; intros ->.
  apply bind_done.
Qed.

Lemma bind_raised {A B} (m : M A) (k : A -> M B) (e : exn) :
  ending m = Raised e -> bind m k = (Raised e, trace m).
Proof. destruct m as [o t]; unfold ending; simpl; intros ->; reflexivity. Qed.

Lemma bind_stopped {A B} (m : M A) (k : A -> M B) :
  ending m = Stopped -> bind m k = (Stopped, trace m).
Proof. destruct m as [o t]; unfold ending; simpl; intros ->; reflexivity. Qed.

(** The trace of a sequence starts with the trace of its first part. *)
Lemma trace_bind {A B} (m : M A) (k : A -> M B) :
  exists t, trace (bind m k) = trace m ++ t
            /\ (t = [] \/ exists a, ending m = Done a /\ t = trace (k a)).
Proof.
  destruct m as [[a | e | ] t].
  - rewrite bind_done. exists (trace (k a)). split; [reflexivity | right; exists a; split; reflexivity].
  - exists []. simpl. rewrite app_nil_r. auto.
  - exists []. simpl. rewrite app_nil_r. auto.
Qed.

Lemma ending_within {A} (c : container) (m : M A) :
  ending (within c m) = ending m.
Proof. reflexivity. Qed.

Lemma trace_within {A} (c : container) (m : M A) :
  trace (within c m) = map (place c) (trace m).
Proof. reflexivity. Qed.

Lemma conn_query_eq (conn : connection) (sql : string) (ttl : option Z) :
  conn_query conn sql ttl
  = (match run_query conn sql ttl with inl e => Raised e | inr df => Done df end,
     [Query sql ttl]).
Proof. unfold conn_query. destruct (run_query conn sql ttl); reflexivity. Qed.

Lemma conn_query_done conn sql ttl df :
  ending (conn_query conn sql ttl) = Done df -> run_query conn sql ttl = inr df.
Proof.
  rewrite conn_query_eq; unfold ending; simpl.
  destruct (run_query conn sql ttl); congruence.
Qed.

Lemma lift_done {A} (r : exn + A) (a : A) : ending (lift r) = Done a -> r = inr a.
Proof. destruct r; unfold ending; simpl; congruence. Qed.

Lemma trace_lift {A} (r : exn + A) : trace (lift r) = [].
Proof. destruct r; reflexivity. Qed.

(** With the connection open, [main] is the top of the page, then the
    dispatch on the select box's answer, then the footer. *)
Lemma main_connected (w : world) (conn : connection) :
  st_connection w "postgresql" "sql" = inr conn ->
  main w =
    let rest := dispatch conn (selectbox_answer w "Choose Analysis Type:" analysis_types) ;; footer in
    (ending rest, page_top ++ trace rest).
Proof.
  intros Hc. unfold main, connect, st_sidebar_selectbox. rewrite Hc.
  cbv beta iota delta [st_title st_markdown st_success st_sidebar_title draw emit
                       lift ret bind try_except app].
  cbv zeta. unfold ending, trace, page_top.
  destruct (dispatch conn _) as [[[] | e | ] t]; [destruct footer | | ]; reflexivity.
Qed.

(** ** The shape of formatted numbers *)

Example int_comma_ex : int_comma 1234567 = "1,234,567". Proof. reflexivity. Qed.
Example int_comma_ex2 : int_comma (-1000) = "-1,000". Proof. reflexivity. Qed.
Example int_comma_ex3 : int_comma 0 = "0". Proof. reflexivity. Qed.
Example int_comma_ex4 : int_comma 100 = "100". Proof. reflexivity. Qed.
Example fixed2_ex : fixed2 true (5000 # 1) = "5,000.00". Proof. reflexivity. Qed.
Example fixed2_ex2 : fixed2 true (1 # 8) = "0.12". Proof. reflexivity. Qed.
Example fixed2_ex3 : fixed2 false (12345 # 10) = "1234.50". Proof. reflexivity. Qed.
Example fixed2_ex4 : fixed2 true (-1 # 1000) = "-0.00". Proof. reflexivity. Qed.
Example fixed2_ex5 : fixed2 true (999999 # 1000) = "1,000.00". Proof. reflexivity. Qed.
Example fixed2_ex6 : fixed2 true (3 # 8) = "0.38". Proof. reflexivity. Qed.
Example repr_comma_ex : repr_comma "1234567.5" = "1,234,567.5". Proof. reflexivity. Qed.
Example repr_comma_ex2 : repr_comma "-1e+16" = "-1e+16". Proof. reflexivity. Qed.

Lemma chars_text (l : list ascii) : chars (text l) = l.
Proof. apply list_ascii_of_string_of_list_ascii. Qed.

Lemma uint_digits (d : Decimal.uint) :
  Forall (fun c => is_digit c = true) (chars (NilEmpty.string_of_uint d)).
Proof. induction d; simpl; constructor; auto. Qed.

Lemma digits_all (n : N) : Forall (fun c => is_digit c = true) (digits n).
Proof.
  unfold digits, NilZero.string_of_uint.
  destruct (N.to_uint n) eqn:E; try (rewrite <- E; apply uint_digits).
  repeat constructor.
Qed.

Lemma digits_nonempty (n : N) : digits n <> [].
Proof.
  unfold digits, NilZero.string_of_uint.
  destruct (N.to_uint n); discriminate.
Qed.

(** Induction over a list in steps of three, as [group3] recurses. *)
Lemma by_threes (P : list ascii -> Prop) :
  P [] -> (forall a, P [a]) -> (forall a b, P [a; b]) ->
  (forall a b c, P [a; b; c]) ->
  (forall a b c d rest, P (d :: rest) -> P (a :: b :: c :: d :: rest)) ->
  forall r, P r.
Proof.
  intros H0 H1 H2 H3 Hstep r.
  assert (H : forall n r, (length r <= n)%nat -> P r).
  { induction n as [| n IH]; intros [| a [| b [| c [| d rest]]]] Hl; auto.
    - simpl in Hl. lia.
    - apply Hstep. apply IH. simpl in *. lia. }
  apply (H (length r)). lia.
Qed.

Lemma group3_grouped (r : list ascii) :
  r <> [] -> Forall (fun c => is_digit c = true) r ->
  grouped_from_right (group3 r) = true.
Proof.
  induction r as [| a | a b | a b c | a b c d rest IH] using by_threes;
    intros Hne Hd.
  - congruence.
  - inversion Hd; subst. assumption.
  - inversion Hd as [| ? ? Ha Hd1]; inversion Hd1; subst. simpl.
    rewrite Ha. assumption.
  - inversion Hd as [| ? ? Ha Hd1]; inversion Hd1 as [| ? ? Hb Hd2];
      inversion Hd2; subst. simpl. rewrite Ha, Hb. assumption.
  - inversion Hd as [| ? ? Ha Hd1]; inversion Hd1 as [| ? ? Hb Hd2];
      inversion Hd2 as [| ? ? Hc Hd3]; subst.
    change (group3 (a :: b :: c :: d :: rest))
      with (a :: b :: c :: ","%char :: group3 (d :: rest)).
    change (grouped_from_right (a :: b :: c :: ","%char :: group3 (d :: rest)))
      with (is_digit a && is_digit b && is_digit c && Ascii.eqb "," ","
            && grouped_from_right (group3 (d :: rest))).
    rewrite Ha, Hb, Hc, IH by (assumption || discriminate). reflexivity.
Qed.

Lemma group3_chars (r : list ascii) :
  Forall (fun c => is_digit c = true) r -> Forall digit_or_comma (group3 r).
Proof.
  induction r as [| a | a b | a b c | a b c d rest IH] using by_threes;
    intros Hd.
  - constructor.
  - simpl. eapply Forall_impl; [ | exact Hd]. intros; left; assumption.
  - simpl. eapply Forall_impl; [ | exact Hd]. intros; left; assumption.
  - simpl. eapply Forall_impl; [ | exact Hd]. intros; left; assumption.
  - inversion Hd as [| ? ? Ha Hd1]; inversion Hd1 as [| ? ? Hb Hd2];
      inversion Hd2 as [| ? ? Hc Hd3]; subst.
    change (group3 (a :: b :: c :: d :: rest))
      with (a :: b :: c :: ","%char :: group3 (d :: rest)).
    do 3 (apply Forall_cons; [left; assumption | ]).
    apply Forall_cons; [right; reflexivity | ]. apply IH. assumption.
Qed.

Lemma thousands_chars (n : N) : Forall digit_or_comma (thousands (digits n)).
Proof.
  unfold thousands. apply Forall_rev, group3_chars, Forall_rev, digits_all.
Qed.

Lemma thousands_grouped (n : N) : grouped (thousands (digits n)) = true.
Proof.
  unfold grouped, thousands. rewrite rev_involutive. apply group3_grouped.
  - intros E. apply (digits_nonempty n). rewrite <- (rev_involutive (digits n)), E.
    reflexivity.
  - apply Forall_rev, digits_all.
Qed.

Lemma unsigned_sign (b : bool) (l : list ascii) :
  Forall digit_or_comma l -> unsigned (sign b ++ l) = l.
Proof.
  intros Hl. destruct b; [reflexivity | ]. simpl.
  destruct Hl as [| c l [Hc | ->] Hl]; [reflexivity | | reflexivity].
  unfold unsigned. destruct c as [[] [] [] [] [] [] [] []]; try reflexivity.
  discriminate Hc.
Qed.

(** An int formatted with [","] is an integer with thousands separators. *)
Lemma int_comma_well_grouped (z : Z) : well_grouped (int_comma z) = true.
Proof.
  unfold well_grouped, int_comma. rewrite chars_text.
  rewrite unsigned_sign by apply thousands_chars. apply thousands_grouped.
Qed.

Lemma at_point_app (pre post : list ascii) :
  Forall (fun c => c <> "."%char) pre ->
  at_point (pre ++ "."%char :: post) = (pre, Some post).
Proof.
  induction 1 as [| c pre Hc Hpre IH]; [reflexivity | ].
  simpl. destruct (Ascii.eqb_spec c "."); [contradiction | ].
  rewrite IH. reflexivity.
Qed.

Lemma two_digits_table : forallb two_digits_ok (seq 0 100) = true.
Proof. vm_compute. reflexivity. Qed.

Lemma two_digits_shape (n : Z) :
  0 <= n < 100 ->
  exists d1 d2, two_digits n = [d1; d2] /\ is_digit d1 = true /\ is_digit d2 = true.
Proof.
  intros Hn.
  assert (H : two_digits_ok (Z.to_nat n) = true).
  { apply (proj1 (forallb_forall two_digits_ok (seq 0 100)) two_digits_table).
    apply in_seq. lia. }
  unfold two_digits_ok in H. rewrite Z2Nat.id in H by lia.
  destruct (two_digits n) as [| d1 [| d2 [| ? ?]]]; try discriminate.
  apply andb_prop in H. exists d1, d2. tauto.
Qed.

Lemma hundredths_cents (q : Q) : 0 <= hundredths q mod 100 < 100.
Proof. apply Z.mod_pos_bound. lia. Qed.

(** A number formatted with [",.2f"] behind a dollar sign is in the
    dollar format. *)
Lemma fixed2_dollar_format (q : Q) :
  dollar_format ("$" ++ fixed2 true q) = true.
Proof.
  unfold dollar_format, fixed2.
  change (chars ("$" ++ ?s)) with ("$"%char :: chars s).
  rewrite chars_text, app_assoc.
  destruct (two_digits_shape _ (hundredths_cents q)) as [d1 [d2 [-> [H1 H2]]]].
  assert (Hw := thousands_chars (Z.to_N (hundredths q / 100))).
  rewrite at_point_app.
  - rewrite unsigned_sign by exact Hw. rewrite thousands_grouped, H1, H2. reflexivity.
  - apply Forall_app. split.
    + destruct (Qnum q <? 0); repeat constructor. discriminate.
    + eapply Forall_impl; [ | exact Hw]. intros c [Hc | ->] E; [ | discriminate].
      subst c. discriminate Hc.
Qed.

(** [",.2f"] prints the exact value 5000 as "5,000.00". *)
Lemma fixed2_5000 (q : Q) : q == 5000 # 1 -> fixed2 true q = "5,000.00".
Proof.
  destruct q as [n d]. unfold Qeq. simpl. intros E.
  assert (Hn : n = 5000 * Zpos d) by lia.
  unfold fixed2, hundredths, round_half_even. simpl Qnum. simpl Qden.
  assert (Hp : 0 < Zpos d) by lia.
  replace (Z.abs n * 100) with (500000 * Zpos d) by lia.
  rewrite Z.div_mul, Z.mod_mul by lia.
  replace (2 * 0 ?= Zpos d) with Lt by (symmetry; apply Z.compare_lt_iff; lia).
  replace (n <? 0) with false by (symmetry; apply Z.ltb_ge; lia).
  reflexivity.
Qed.

(** ** Every event of a run *)

Lemma emits_ret {A} S (a : A) : emits S (ret a).
Proof. constructor. Qed.

Lemma emits_raise {A} S (e : exn) : emits S (@raise A e).
Proof. constructor. Qed.

Lemma emits_stop {A} S : emits S (@st_stop A).
Proof. constructor. Qed.

Lemma emits_lift {A} S (r : exn + A) : emits S (lift r).
Proof. unfold emits. rewrite trace_lift. constructor. Qed.

Lemma emits_emit S (e : event) : S e -> emits S (emit e).
Proof. intros H. repeat constructor. exact H. Qed.

Lemma emits_draw S (el : element) : S (Draw Page el) -> emits S (draw el).
Proof. apply emits_emit. Qed.

Lemma emits_bind {A B} S (m : M A) (k : A -> M B) :
  emits S m -> (forall a, ending m = Done a -> emits S (k a)) ->
  emits S (bind m k).
Proof.
  unfold emits. intros Hm Hk.
  destruct (trace_bind m k) as [t [-> [-> | [a [Ha ->]]]]].
  - rewrite app_nil_r. exact Hm.
  - apply Forall_app. split; [exact Hm | exact (Hk a Ha)].
Qed.

Lemma emits_within {A} S (c : container) (m : M A) :
  placement_blind S -> emits S m -> emits S (within c m).
Proof.
  unfold emits. rewrite trace_within. intros Hs Hm.
  apply Forall_map. eapply Forall_impl; [ | exact Hm]. intros e. apply Hs.
Qed.

Lemma emits_try {A} S (body : M A) (handler : exn -> M A) :
  emits S body -> (forall e, emits S (handler e)) ->
  emits S (try_except body handler).
Proof.
  unfold emits, try_except. destruct body as [[a | e | ] t]; simpl; intros Hb Hh; auto.
  specialize (Hh e). destruct (handler e) as [o t']. simpl in *.
  apply Forall_app. auto.
Qed.

Lemma emits_conn_query S conn sql ttl :
  S (Query sql ttl) -> emits S (conn_query conn sql ttl).
Proof. intros H. unfold emits. rewrite conn_query_eq. repeat constructor. exact H. Qed.

Lemma emits_px S k df x y t : emits S (px k df x y t).
Proof. unfold px. destruct (_ && _); constructor. Qed.

Ltac unfold_widgets :=
  unfold st_title, st_markdown, st_success, st_error, st_header, st_subheader,
    st_info, st_columns, st_metric, st_plotly_chart, st_dataframe,
    st_sidebar_title, st_sidebar_selectbox, connect, iloc, format,
    px_bar, px_line.

Ltac unfold_script :=
  unfold main, footer, dispatch, overview, customer_analysis, order_analysis,
    order_statistics, data_quality, orders_by_status, orders_over_time,
    sales_revenue, time_series.

(** Walks through a script: [hook] sees what is known of each
    intermediate result, [leaf] proves the property of each event. *)
Ltac emits_walk_with blind hook leaf :=
  repeat lazymatch goal with
  | |- emits _ (bind _ _) =>
      apply emits_bind;
      [ | let a := fresh "a" in let H := fresh "H" in intros a H; hook H ]
  | |- emits _ (within _ _) => apply emits_within; [ solve [blind] | ]
  | |- emits _ (try_except _ _) => apply emits_try; [ | intros ? ]
  | |- emits _ (if ?b then _ else _) => destruct b
  | |- emits _ (let x := _ in _) => cbv zeta
  | |- emits _ (ret _) => apply emits_ret
  | |- emits _ (raise _) => apply emits_raise
  | |- emits _ st_stop => apply emits_stop
  | |- emits _ (lift _) => apply emits_lift
  | |- emits _ (px _ _ _ _ _) => apply emits_px
  | |- emits _ (conn_query _ _ _) => apply emits_conn_query; leaf
  | |- emits _ (draw _) => apply emits_draw; leaf
  | |- emits _ (emit _) => apply emits_emit; leaf
  end.

Ltac emits_walk blind leaf :=
  emits_walk_with ltac:(exact blind) ltac:(fun H => idtac) leaf.

Lemma fresh_blind : placement_blind fresh_for_600s.
Proof. intros c [[] el | | ]; simpl; auto. Qed.

Lemma reads_only_blind : placement_blind reads_only.
Proof. intros c [[] el | | ]; simpl; auto. Qed.

(** C7. Whatever the world and the selection, every query [main] sends
    is sent with a time-to-live of 600 seconds: none with another value,
    none without one. *)
Theorem every_query_has_ttl_600 (w : world) :
  Forall fresh_for_600s (trace (main w)).
Proof.
  change (emits fresh_for_600s (main w)).
  unfold_script. unfold_widgets.
  emits_walk fresh_blind ltac:(exact I || reflexivity).
Qed.

(** C8. Whatever the world and the selection, every SQL text [main]
    sends is a single SELECT statement that names no writing and no
    schema-changing command. *)
Theorem every_query_is_read_only (w : world) :
  Forall reads_only (trace (main w)).
Proof.
  change (emits reads_only (main w)).
  unfold_script. unfold_widgets.
  emits_walk reads_only_blind ltac:(exact I || (vm_compute; reflexivity)).
Qed.

Example read_only_select : read_only "SELECT COUNT(*) FROM orders" = true.
Proof. reflexivity. Qed.
Example read_only_delete : read_only "DELETE FROM orders" = false.
Proof. reflexivity. Qed.
Example read_only_two_statements :
  read_only "SELECT 1; DROP TABLE orders" = false.
Proof. reflexivity. Qed.
Example read_only_select_into :
  read_only "select * into backup from orders" = false.
Proof. reflexivity. Qed.

(** ** The queries of a run *)

Lemma queries_app (t1 t2 : list event) :
  queries (t1 ++ t2) = queries t1 ++ queries t2.
Proof.
  induction t1 as [| [c el | n ty | sql ttl] t1 IH]; simpl; congruence.
Qed.

Lemma queries_place (c : container) (t : list event) :
  queries (map (place c) t) = queries t.
Proof.
  induction t as [| [[] el | n ty | sql ttl] t IH]; simpl; congruence.
Qed.

Lemma issues_silent {A} (m : M A) : trace m = [] -> issues [] m.
Proof.
  intros E. unfold issues. rewrite E. split; [exists []; reflexivity | reflexivity].
Qed.

Lemma issues_ret {A} (a : A) : issues [] (ret a).
Proof. apply issues_silent. reflexivity. Qed.

Lemma issues_lift {A} (r : exn + A) : issues [] (lift r).
Proof. apply issues_silent, trace_lift. Qed.

Lemma issues_px k df x y t : issues [] (px k df x y t).
Proof. apply issues_silent. unfold px. destruct (_ && _); reflexivity. Qed.

Lemma issues_draw (el : element) : issues [] (draw el).
Proof. split; [exists []; reflexivity | reflexivity]. Qed.

Lemma issues_conn_query conn sql ttl : issues [sql] (conn_query conn sql ttl).
Proof.
  unfold issues. rewrite conn_query_eq. simpl.
  split; [exists []; reflexivity | reflexivity].
Qed.

Lemma issues_bind {A B} (q1 q2 : list string) (m : M A) (k : A -> M B) :
  issues q1 m -> (forall a, issues q2 (k a)) -> issues (q1 ++ q2) (bind m k).
Proof.
  intros [[r1 Hp] Hd] Hk. destruct m as [[a | e | ] t].
  - rewrite bind_done. destruct (Hk a) as [[r2 Hp2] Hd2].
    unfold issues. cbn [trace ending fst snd] in *.
    rewrite queries_app, (Hd a eq_refl). split.
    + exists r2. rewrite Hp2, app_assoc. reflexivity.
    + intros b Hb. rewrite (Hd2 b Hb). reflexivity.
  - unfold issues. cbn [bind trace ending fst snd] in *. split; [ | discriminate].
    exists (r1 ++ q2). rewrite Hp, app_assoc. reflexivity.
  - unfold issues. cbn [bind trace ending fst snd] in *. split; [ | discriminate].
    exists (r1 ++ q2). rewrite Hp, app_assoc. reflexivity.
Qed.

Lemma issues_within {A} (qs : list string) (c : container) (m : M A) :
  issues qs m -> issues qs (within c m).
Proof.
  unfold issues. rewrite trace_within, queries_place, ending_within. auto.
Qed.

Lemma issues_cast {A} (qs qs' : list string) (m : M A) :
  issues qs m -> qs = qs' -> issues qs' m.
Proof. intros H <-. exact H. Qed.

Ltac issues_walk :=
  repeat lazymatch goal with
  | |- issues _ (bind _ _) => eapply issues_bind; [ | intros ? ]
  | |- issues _ (within _ _) => apply issues_within
  | |- issues _ (if ?b then _ else _) => destruct b
  | |- issues _ (let x := _ in _) => cbv zeta
  | |- issues _ (ret _) => apply issues_ret
  | |- issues _ (lift _) => apply issues_lift
  | |- issues _ (px _ _ _ _ _) => apply issues_px
  | |- issues _ (conn_query _ _ _) => apply issues_conn_query
  | |- issues _ (draw _) => apply issues_draw
  end.

Lemma dispatch_report (conn : connection) (r : report) :
  dispatch conn (report_name r)
  = match r with
    | Overview => overview conn
    | CustomerAnalysis => customer_analysis conn
    | OrderAnalysis => order_analysis conn
    | SalesRevenue => sales_revenue conn
    | TimeSeriesAnalysis => time_series conn
    end.
Proof. destruct r; reflexivity. Qed.

Lemma report_issues (conn : connection) (r : report) :
  issues (report_queries r) (dispatch conn (report_name r) ;; footer).
Proof.
  rewrite dispatch_report.
  destruct r;
    (eapply issues_cast;
     [unfold_script; unfold_widgets; issues_walk | reflexivity]).
Qed.




Lemma names_of_reports : analysis_types = map report_name all_reports.
Proof. reflexivity. Qed.


(** ** Runs that are fixed by the world *)

(** When [st.connection] itself raises, whatever the exception, [main]
    draws the title and the rule, tries the connection once, shows the
    one error message and stops: no retry, no query, nothing of any
    report, no footer. *)
Lemma connection_failure_stops (w : world) (e : exn) :
  st_connection w "postgresql" "sql" = inl e ->
  main w = (Stopped,
            [ Draw Page (Title "🛒 E-Commerce Data Analysis Dashboard");
              Draw Page (Markdown "---");
              Connect "postgresql" "sql";
              Draw Page (Error connection_error_message "🚨") ]).
Proof.
  intros Hc. unfold main, connect. rewrite Hc. reflexivity.
Qed.

Lemma dispatch_unknown (conn : connection) (sel : string) :
  ~ In sel analysis_types -> dispatch conn sel = ret tt.
Proof.
  intros Hn. unfold dispatch.
  repeat match goal with
  | |- context [String.eqb sel ?s] =>
      destruct (String.eqb_spec sel s) as [-> | _];
      [exfalso; apply Hn; simpl; tauto | ]
  end.
  reflexivity.
Qed.

(** C10. For any value that is none of the five names, no branch of
    the dispatch runs: it ends normally without a query, a header or
    any other event.  In a run of [main] whose select box answers such a
    value, with the connection open, [main] ends normally, sends no
    query and draws only what surrounds the dispatch: the top of the
    page (title, rule, connection banner, sidebar title and select box)
    and the footer. *)
Theorem unknown_selection_runs_no_branch (conn : connection) (sel : string) :
  ~ In sel analysis_types ->
  dispatch conn sel = (Done tt, [])
  /\ forall w,
       st_connection w "postgresql" "sql" = inr conn ->
       selectbox_answer w "Choose Analysis Type:" analysis_types = sel ->
       main w = (Done tt, page_top ++ page_footer)
       /\ queries (trace (main w)) = [].
Proof.
  intros Hn. split; [exact (dispatch_unknown conn sel Hn) | ].
  intros w Hc Hs.
  assert (E : main w = (Done tt, page_top ++ page_footer)).
  { rewrite (main_connected w conn Hc), Hs, (dispatch_unknown conn _ Hn).
    reflexivity. }
  split; [exact E | rewrite E; reflexivity].
Qed.

(** C4. With the connection open and " Customer Analysis" selected,
    when the grouped customer query returns no rows, [main] ends
    normally and, between the top of the page and the footer, draws the
    section header and sends the query: no chart, no table. *)
Theorem customer_analysis_without_customers (w : world) (conn : connection) (df : dataframe) :
  st_connection w "postgresql" "sql" = inr conn ->
  selectbox_answer w "Choose Analysis Type:" analysis_types = " Customer Analysis" ->
  run_query conn customers_by_state_sql (Some 600) = inr df ->
  rows df = [] ->
  main w = (Done tt,
            page_top
            ++ [ Draw Page (Header "Customer Analysis");
                 Query customers_by_state_sql (Some 600) ]
            ++ page_footer).
Proof.
  intros Hc Hs Hq Hr.
  rewrite (main_connected w conn Hc), Hs.
  change (dispatch conn " Customer Analysis") with (customer_analysis conn).
  assert (He : df_empty df = true) by (unfold df_empty; rewrite Hr; reflexivity).
  unfold customer_analysis, st_header, draw, emit, ttl600.
  rewrite bind_done, conn_query_eq, Hq, bind_done. cbv beta.
  rewrite He. reflexivity.
Qed.

(** C6, where the script misses it.  On a connection that
    [st.connection] hands out for a server that cannot be reached,
    whatever report is selected: [main] draws the banner "Connected to
    database successfully!" and the report's header, then ends with the
    exception of the first query, uncaught.  It shows no error message
    and does not stop by [st.stop()]. *)
Theorem unreachable_database_goes_unreported (r : report) :
  let run := main (world_of (inr unreachable) (report_name r)) in
  ending run = Raised (OtherError "OperationalError")
  /\ In (Draw Page (Success "✅ Connected to database successfully!")) (trace run)
  /\ In (Draw Page (Header (report_header r))) (trace run)
  /\ (forall c msg icon, ~ In (Draw c (Error msg icon)) (trace run)).
Proof.
  destruct r; vm_compute; (split; [reflexivity | ]);
    (split; [repeat (first [left; reflexivity | right]) | ]);
    (split; [repeat (first [left; reflexivity | right]) | ]);
    intros c msg icon H;
    repeat (destruct H as [H | H]; [discriminate H | ]); exact H.
Qed.

(** ** The Overview scenario *)

Lemma in_trace_bind {A B} (m : M A) (k : A -> M B) (e : event) :
  In e (trace m) -> In e (trace (bind m k)).
Proof.
  intros H. destruct (trace_bind m k) as [t [-> _]]. apply in_or_app. auto.
Qed.

Lemma in_trace_bind_r {A B} (m : M A) (k : A -> M B) (a : A) (e : event) :
  ending m = Done a -> In e (trace (k a)) -> In e (trace (bind m k)).
Proof.
  intros H Hin. rewrite (bind_split m k a H). apply in_or_app. right. exact Hin.
Qed.

(** A metric panel whose query, first cell and format succeed. *)
Lemma metric_block_run conn sql spec (shown : string -> element) df v s :
  run_query conn sql (Some 600) = inr df ->
  iloc_cell df 0 0 = inr v ->
  py_format spec v = inr s ->
  (df <- conn_query conn sql (Some 600) ;;
   v <- lift (iloc_cell df 0 0) ;;
   s <- lift (py_format spec v) ;;
   draw (shown s))
  = (Done tt, [Query sql (Some 600); Draw Page (shown s)]).
Proof.
  intros Hq Hc Hf. rewrite conn_query_eq, Hq, bind_done. cbv beta.
  rewrite Hc. change (lift (inr v)) with (Done v, @nil event).
  rewrite bind_done. cbv beta. rewrite Hf. reflexivity.
Qed.

(** C2. With the connection open and " Overview" selected: when the
    customer count query returns 100, the distinct order query 50, the
    order row query 120 and the payment sum query a float of exact value
    5000, the page shows the metrics "Total Customers" = "100", "Unique
    Orders" = "50", "Order Records" = "120" and "Total Revenue" =
    "$5,000.00", one in each of the four columns. *)
Theorem overview_scenario (w : world) (conn : connection)
    (customers orders order_rows revenue : dataframe) (sum : pyfloat) :
  st_connection w "postgresql" "sql" = inr conn ->
  selectbox_answer w "Choose Analysis Type:" analysis_types = " Overview" ->
  run_query conn "SELECT COUNT(customer_id) FROM customers" (Some 600) = inr customers ->
  iloc_cell customers 0 0 = inr (PyInt 100) ->
  run_query conn "SELECT COUNT(DISTINCT order_id) FROM orders" (Some 600) = inr orders ->
  iloc_cell orders 0 0 = inr (PyInt 50) ->
  run_query conn "SELECT COUNT(*) FROM orders" (Some 600) = inr order_rows ->
  iloc_cell order_rows 0 0 = inr (PyInt 120) ->
  run_query conn "SELECT ROUND(SUM(payment_value)::NUMERIC, 2) FROM payments" (Some 600) = inr revenue ->
  iloc_cell revenue 0 0 = inr (PyFloat sum) ->
  exact sum == 5000 # 1 ->
  In (Draw col1 (Metric "Total Customers" "100")) (trace (main w))
  /\ In (Draw col2 (Metric "Unique Orders" "50")) (trace (main w))
  /\ In (Draw col3 (Metric "Order Records" "120")) (trace (main w))
  /\ In (Draw col4 (Metric "Total Revenue" "$5,000.00")) (trace (main w)).
Proof.
  intros Hc Hs Q1 C1 Q2 C2 Q3 C3 Q4 C4 Hsum.
  assert (F1 : py_format Comma (PyInt 100) = inr "100") by reflexivity.
  assert (F2 : py_format Comma (PyInt 50) = inr "50") by reflexivity.
  assert (F3 : py_format Comma (PyInt 120) = inr "120") by reflexivity.
  assert (F4 : py_format Comma2f (PyFloat sum) = inr "5,000.00").
  { simpl. rewrite (fixed2_5000 _ Hsum). reflexivity. }
  rewrite (main_connected w conn Hc), Hs. cbv zeta.
  change (dispatch conn " Overview") with (overview conn).
  cut (forall e,
         In e [ Draw col1 (Metric "Total Customers" "100");
                Draw col2 (Metric "Unique Orders" "50");
                Draw col3 (Metric "Order Records" "120");
                Draw col4 (Metric "Total Revenue" "$5,000.00") ] ->
         In e (trace (overview conn))).
  { intros H. repeat split; apply in_or_app; right; apply in_trace_bind, H;
      simpl; tauto. }
  unfold overview. unfold_widgets. unfold ttl600.
  pose proof (metric_block_run conn _ Comma (Metric "Total Customers")
                _ _ _ Q1 C1 F1) as B1.
  pose proof (metric_block_run conn _ Comma (Metric "Unique Orders")
                _ _ _ Q2 C2 F2) as B2.
  pose proof (metric_block_run conn _ Comma (Metric "Order Records")
                _ _ _ Q3 C3 F3) as B3.
  pose proof (metric_block_run conn _ Comma2f
                (fun s => Metric "Total Revenue" ("$" ++ s)%string)
                _ _ _ Q4 C4 F4) as B4.
  cbv beta in B4.
  intros e He.
  do 2 (eapply in_trace_bind_r; [reflexivity | ]).
  destruct He as [<- | He].
  { apply in_trace_bind. rewrite B1. right. left. reflexivity. }
  eapply in_trace_bind_r; [rewrite B1; reflexivity | ].
  destruct He as [<- | He].
  { apply in_trace_bind. rewrite B2. right. left. reflexivity. }
  eapply in_trace_bind_r; [rewrite B2; reflexivity | ].
  destruct He as [<- | He].
  { apply in_trace_bind. rewrite B3. right. left. reflexivity. }
  eapply in_trace_bind_r; [rewrite B3; reflexivity | ].
  destruct He as [<- | []].
  apply in_trace_bind. rewrite B4. right. left. reflexivity.
Qed.

(** ** Chart panels on an empty result *)

Lemma ending_bind {A B} (m : M A) (k : A -> M B) (a : A) :
  ending m = Done a -> ending (bind m k) = ending (k a).
Proof. intros H. rewrite (bind_split m k a H). reflexivity. Qed.

Lemma px_title k df x y t (fig : figure) :
  ending (px k df x y t) = Done fig -> title fig = t.
Proof.
  unfold px. destruct (_ && _); unfold ending; simpl; [ | discriminate].
  intros E. injection E as <-. reflexivity.
Qed.

Lemma chart_blind (p : chart_panel) :
  placement_blind (fun e => ~ is_chart_of p e).
Proof. intros c [[] el | | ]; simpl; auto. Qed.

(** On an empty result, the panel draws its heading, sends its query
    and ends normally. *)
Lemma panel_on_empty (conn : connection) (p : chart_panel) (df : dataframe) :
  run_query conn (panel_sql p) (Some 600) = inr df ->
  df_empty df = true ->
  panel p conn
  = (Done tt, [Draw Page (panel_heading p); Query (panel_sql p) (Some 600)]).
Proof.
  intros Hq He.
  destruct p; cbn [panel panel_sql panel_heading] in *;
    unfold_script; unfold_widgets; unfold draw, emit, ttl600;
    rewrite bind_done, conn_query_eq, Hq, bind_done; cbv beta;
    rewrite He; reflexivity.
Qed.

Ltac other_title H :=
  rewrite (px_title _ _ _ _ _ _ H);
  cbn [In panel_titles];
  let E := fresh "E" in
  intros E;
  repeat (destruct E as [E | E];
          [apply (proj2 (String.eqb_eq _ _)) in E; vm_compute in E; discriminate E | ]);
  exact E.

Ltac chart_leaf :=
  cbn [is_chart_of update_xaxes title];
  first
    [ exact (fun f : False => f)
    | match goal with
      | H : ending (px _ _ _ _ _) = Done ?a |- ~ In (title ?a) _ => other_title H
      end ].

Lemma no_chart_on_empty (conn : connection) (p : chart_panel) (df : dataframe)
    (sel : string) :
  run_query conn (panel_sql p) (Some 600) = inr df ->
  df_empty df = true ->
  emits (fun e => ~ is_chart_of p e) (dispatch conn sel ;; footer).
Proof.
  intros Hq He.
  destruct p; cbn [panel_sql] in Hq;
    unfold_script; unfold_widgets;
    emits_walk_with ltac:(apply chart_blind)
      ltac:(fun H =>
              try (apply conn_query_done in H; unfold ttl600 in H;
                   rewrite Hq in H; injection H as <-;
                   rewrite He; cbn [negb]))
      chart_leaf.
Qed.

Lemma ending_footer : ending footer = Done tt.
Proof. reflexivity. Qed.

(** The report of the panel ends normally when the panel's query is
    empty and its other sections end normally. *)
Lemma report_done_on_empty (conn : connection) (p : chart_panel) (df : dataframe) :
  run_query conn (panel_sql p) (Some 600) = inr df ->
  df_empty df = true ->
  other_sections_done p conn ->
  ending (dispatch conn (report_name (panel_report p))) = Done tt.
Proof.
  intros Hq He Ho. rewrite dispatch_report.
  pose proof (panel_on_empty conn p df Hq He) as Hp.
  destruct p; cbn [panel_report panel other_sections_done] in *;
    try (rewrite Hp; reflexivity).
  - destruct Ho as [H1 [H2 H3]]. unfold order_analysis.
    rewrite (ending_bind (st_header "Order Analysis") _ tt eq_refl),
      (ending_bind _ _ tt H1),
      (ending_bind _ _ tt H2), Hp.
    rewrite bind_done. exact H3.
  - destruct Ho as [H1 [H2 H3]]. unfold order_analysis.
    rewrite (ending_bind (st_header "Order Analysis") _ tt eq_refl),
      (ending_bind _ _ tt H1),
      (ending_bind _ _ tt H2), (ending_bind _ _ tt H3), Hp.
    reflexivity.
Qed.

Lemma bind_assoc {A B C} (m : M A) (k : A -> M B) (h : B -> M C) :
  bind (bind m k) h = bind m (fun a => bind (k a) h).
Proof.
  destruct m as [[a | e | ] t]; [ | reflexivity | reflexivity].
  unfold bind. destruct (k a) as [[b | e | ] t']; [ | reflexivity | reflexivity].
  destruct (h b) as [o t'']. rewrite app_assoc. reflexivity.
Qed.

Lemma bind_ret_l {B} (k : unit -> M B) : bind (ret tt) k = k tt.
Proof. unfold ret. rewrite bind_done. destruct (k tt); reflexivity. Qed.

Lemma bind_ret_r (m : M unit) : bind m (fun _ => ret tt) = m.
Proof.
  destruct m as [[[] | e | ] t]; [ | reflexivity | reflexivity].
  unfold ret. rewrite bind_done. cbn [ending trace fst snd].
  rewrite app_nil_r. reflexivity.
Qed.

(** The report of a panel is the sections before it, the panel, and the
    sections after it. *)
Lemma report_sections (conn : connection) (p : chart_panel) :
  dispatch conn (report_name (panel_report p))
  = (sections_before p conn ;; panel p conn ;; sections_after p conn).
Proof.
  rewrite dispatch_report.
  destruct p; cbn [panel_report panel sections_before sections_after];
    rewrite ?bind_ret_l, ?bind_ret_r; try reflexivity.
  - unfold order_analysis. rewrite !bind_assoc. reflexivity.
  - unfold order_analysis. rewrite !bind_assoc. reflexivity.
Qed.

(** With the panel's query empty and the sections before it done, the
    run is: the top of the page, those sections, the panel's heading and
    query, and then the sections after the panel and the footer. *)
Lemma run_around_empty_panel (w : world) (conn : connection) (p : chart_panel)
    (df : dataframe) :
  st_connection w "postgresql" "sql" = inr conn ->
  selectbox_answer w "Choose Analysis Type:" analysis_types
    = report_name (panel_report p) ->
  run_query conn (panel_sql p) (Some 600) = inr df ->
  df_empty df = true ->
  ending (sections_before p conn) = Done tt ->
  main w
  = (ending (sections_after p conn ;; footer),
     page_top ++ trace (sections_before p conn)
     ++ [Draw Page (panel_heading p); Query (panel_sql p) (Some 600)]
     ++ trace (sections_after p conn ;; footer)).
Proof.
  intros Hc Hs Hq He Hb.
  rewrite (main_connected w conn Hc), Hs. cbv zeta.
  rewrite report_sections, !bind_assoc.
  rewrite (bind_split _ _ tt Hb), (panel_on_empty conn p df Hq He), bind_done.
  reflexivity.
Qed.

(** C3. For each of the five chart panels: with the connection open and
    the panel's report selected, when the panel's query returns an empty
    frame, the panel draws only its heading, sends its query and ends
    normally; no chart of the panel appears anywhere in the run; once
    the sections before the panel are done, the run of [main] goes on
    from the panel's query with the sections after it and the footer,
    all of them; and when the other sections of the report end normally,
    [main] ends normally with the footer drawn last. *)
Theorem empty_result_suppresses_chart (w : world) (conn : connection)
    (p : chart_panel) (df : dataframe) :
  st_connection w "postgresql" "sql" = inr conn ->
  selectbox_answer w "Choose Analysis Type:" analysis_types
    = report_name (panel_report p) ->
  run_query conn (panel_sql p) (Some 600) = inr df ->
  df_empty df = true ->
  panel p conn
    = (Done tt, [Draw Page (panel_heading p); Query (panel_sql p) (Some 600)])
  /\ (forall e, In e (trace (main w)) -> ~ is_chart_of p e)
  /\ (ending (sections_before p conn) = Done tt ->
      main w
      = (ending (sections_after p conn ;; footer),
         page_top ++ trace (sections_before p conn)
         ++ [Draw Page (panel_heading p); Query (panel_sql p) (Some 600)]
         ++ trace (sections_after p conn ;; footer)))
  /\ (other_sections_done p conn ->
      ending (main w) = Done tt
      /\ exists t, trace (main w) = t ++ page_footer).
Proof.
  intros Hc Hs Hq He. split; [exact (panel_on_empty conn p df Hq He) | ].
  split; [ | split; [exact (run_around_empty_panel w conn p df Hc Hs Hq He) | ]].
  - rewrite (main_connected w conn Hc), Hs. cbv zeta.
    change (trace (?o, ?t)) with t.
    intros e [Hin | Hin]%in_app_or.
    + unfold page_top in Hin.
      repeat (destruct Hin as [<- | Hin]; [exact (fun f : False => f) | ]).
      destruct Hin.
    + pose proof (no_chart_on_empty conn p df (report_name (panel_report p)) Hq He) as Hn.
      exact (proj1 (Forall_forall _ _) Hn e Hin).
  - rewrite (main_connected w conn Hc), Hs. cbv zeta.
    change (trace (?o, ?t)) with t. change (ending (?o, ?t)) with o.
    intros Ho.
    pose proof (report_done_on_empty conn p df Hq He Ho) as Hd.
    rewrite (bind_split _ _ tt Hd).
    change (trace (?o, ?t)) with t. change (ending (?o, ?t)) with o.
    split; [reflexivity | ].
    exists (page_top ++ trace (dispatch conn (report_name (panel_report p)))).
    rewrite app_assoc. reflexivity.
Qed.

(** ** The format of the metrics *)

Lemma comma_of_int (v : pyval) (s : string) :
  (exists z, v = PyInt z) -> py_format Comma v = inr s -> well_grouped s = true.
Proof.
  intros [z ->] E. injection E as <-. apply int_comma_well_grouped.
Qed.

Lemma comma2f_of_number (v : pyval) (s : string) :
  (exists z, v = PyInt z) \/ (exists f, v = PyFloat f) ->
  py_format Comma2f v = inr s -> dollar_format ("$" ++ s) = true.
Proof.
  intros [[z ->] | [f ->]]; simpl.
  - destruct (float_of_int z); [discriminate | ].
    intros E. injection E as <-. apply fixed2_dollar_format.
  - intros E. injection E as <-. apply fixed2_dollar_format.
Qed.

Ltac known_answer H :=
  first [ apply conn_query_done in H | apply lift_done in H | idtac ].

Ltac label_absent :=
  let Hin := fresh "Hin" in
  intros Hin; exfalso;
  cbn [In count_labels currency_labels] in Hin;
  repeat (destruct Hin as [Hin | Hin];
          [apply (proj2 (String.eqb_eq _ _)) in Hin; vm_compute in Hin;
           discriminate Hin | ]);
  exact Hin.

Ltac label_listed :=
  cbn [In app count_labels currency_labels ratio_labels];
  repeat (first [left; reflexivity | right]).

(** With 2469 orders from two customers, "Orders per Customer" is drawn
    as "1234.50", four digits in a row. *)
Lemma ratio_metric_without_separators :
  ~ every_metric_separated
      (trace (main (world_of (inr wholesale) " Order Analysis"))).
Proof.
  intros H.
  specialize (H col2 "Orders per Customer" "1234.50").
  assert (Hin : In (Draw col2 (Metric "Orders per Customer" "1234.50"))
                  (trace (main (world_of (inr wholesale) " Order Analysis")))).
  { vm_compute. repeat (first [left; reflexivity | right]). }
  specialize (H Hin). vm_compute in H. discriminate H.
Qed.

(** ** Metric panels read the first cell unguarded *)

Lemma stops_quiet {A} conn (m : M A) :
  (forall sql ttl, ~ In (Query sql ttl) (trace m)) -> stops_at_break conn m.
Proof. intros Hq sql e _ Hin. destruct (Hq _ _ Hin). Qed.

Lemma stops_ret {A} conn (a : A) : stops_at_break conn (ret a).
Proof. apply stops_quiet. intros sql ttl []. Qed.

Lemma stops_lift {A} conn (r : exn + A) : stops_at_break conn (lift r).
Proof. apply stops_quiet. rewrite trace_lift. intros sql ttl []. Qed.

Lemma stops_px conn k df x y t : stops_at_break conn (px k df x y t).
Proof.
  apply stops_quiet. unfold px. destruct (_ && _); intros sql ttl [].
Qed.

Lemma stops_draw conn (el : element) : stops_at_break conn (draw el).
Proof. apply stops_quiet. intros sql ttl [E | []]. discriminate E. Qed.

Lemma stops_bind {A B} conn (m : M A) (k : A -> M B) :
  stops_at_break conn m -> (forall a, stops_at_break conn (k a)) ->
  stops_at_break conn (bind m k).
Proof.
  intros Hm Hk sql e Hb Hin. destruct m as [[a | e' | ] t].
  - rewrite bind_done in *. cbn [trace snd] in Hin.
    apply in_app_or in Hin. destruct Hin as [Hin | Hin].
    + destruct (Hm sql e Hb Hin) as [E _]. discriminate E.
    + destruct (Hk a sql e Hb Hin) as [E [t' Ht]]. split; [exact E | ].
      exists (t ++ t'). cbn [trace snd]. rewrite Ht, app_assoc. reflexivity.
  - destruct (Hm sql e Hb Hin) as [E [t' Ht]]. injection E as ->.
    split; [reflexivity | exists t'; exact Ht].
  - destruct (Hm sql e Hb Hin) as [E _]. discriminate E.
Qed.

Lemma place_query (c : container) (ev : event) (sql : string) (ttl : option Z) :
  place c ev = Query sql ttl -> ev = Query sql ttl.
Proof. destruct ev as [[] el | | ]; simpl; congruence. Qed.

Lemma stops_within {A} conn (c : container) (m : M A) :
  stops_at_break conn m -> stops_at_break conn (within c m).
Proof.
  intros Hm sql e Hb Hin. rewrite trace_within in Hin.
  apply in_map_iff in Hin. destruct Hin as [ev [Hev Hin]].
  apply place_query in Hev. subst ev.
  destruct (Hm sql e Hb Hin) as [E [t Ht]]. split; [exact E | ].
  exists (map (place c) t). rewrite trace_within, Ht, map_app. reflexivity.
Qed.

(** A query that is not a metric query never breaks a metric panel. *)
Lemma stops_other_query conn sql ttl :
  metric_format sql = None -> stops_at_break conn (conn_query conn sql ttl).
Proof.
  intros Hn sql' e [spec [df [Hf _]]] Hin. rewrite conn_query_eq in Hin.
  destruct Hin as [E | []]. injection E as -> _. congruence.
Qed.

(** The metric panel, as the script writes it every time: query, first
    cell, format, [st.metric]. *)
Lemma stops_metric conn sql spec (shown : string -> element) :
  metric_format sql = Some spec ->
  stops_at_break conn
    (df <- conn_query conn sql (Some 600) ;;
     v <- lift (iloc_cell df 0 0) ;;
     s <- lift (py_format spec v) ;;
     draw (shown s)).
Proof.
  intros Hs sql' e [spec' [df [Hf [Hq Hfail]]]] Hin.
  assert (E : sql' = sql).
  { rewrite conn_query_eq in Hin.
    destruct (run_query conn sql (Some 600)) as [e0 | df0].
    - destruct Hin as [E | []]. congruence.
    - rewrite bind_done in Hin. cbn [trace snd app] in Hin.
      destruct Hin as [E | Hin]; [congruence | ].
      destruct (iloc_cell df0 0 0) as [e1 | v]; [destruct Hin | ].
      change (lift (inr v)) with (Done v, @nil event) in Hin.
      rewrite bind_done in Hin.
      destruct (py_format spec v) as [e2 | s]; [destruct Hin | ].
      destruct Hin as [E | []]. discriminate E. }
  subst sql'. assert (spec' = spec) by congruence. subst spec'.
  unfold raises_after. rewrite conn_query_eq, Hq, bind_done.
  unfold metric_failure in Hfail.
  destruct (iloc_cell df 0 0) as [e1 | v].
  - injection Hfail as ->. split; [reflexivity | exists []; reflexivity].
  - change (lift (inr v)) with (Done v, @nil event). rewrite bind_done.
    destruct (py_format spec v) as [e2 | s]; [ | discriminate].
    injection Hfail as ->. split; [reflexivity | exists []; reflexivity].
Qed.

Ltac stops_walk :=
  repeat lazymatch goal with
  | |- stops_at_break _ (bind (conn_query _ _ _) _) =>
      first
        [ eapply stops_metric; reflexivity
        | apply stops_bind; [apply stops_other_query; reflexivity | intros ? ] ]
  | |- stops_at_break _ (bind _ _) => apply stops_bind; [ | intros ? ]
  | |- stops_at_break _ (within _ _) => apply stops_within
  | |- stops_at_break _ (if ?b then _ else _) => destruct b
  | |- stops_at_break _ (let x := _ in _) => cbv zeta
  | |- stops_at_break _ (ret _) => apply stops_ret
  | |- stops_at_break _ (lift _) => apply stops_lift
  | |- stops_at_break _ (px _ _ _ _ _) => apply stops_px
  | |- stops_at_break _ (draw _) => apply stops_draw
  end.

Lemma dispatch_stops (conn : connection) (sel : string) :
  stops_at_break conn (dispatch conn sel ;; footer).
Proof.
  unfold_script. unfold_widgets. unfold ttl600. stops_walk.
Qed.

Lemma failure_on_no_rows (spec : fspec) (df : dataframe) :
  rows df = [] -> metric_failure spec df = Some IndexError.
Proof.
  intros E. unfold metric_failure, iloc_cell. rewrite E.
  destruct (_ <? _)%nat; reflexivity.
Qed.

Lemma failure_on_null (df : dataframe) :
  iloc_cell df 0 0 = inr PyNone -> metric_failure Comma2f df = Some TypeError.
Proof. intros E. unfold metric_failure. rewrite E. reflexivity. Qed.

(** C9. With the connection open, whenever [main] sends the query of a
    metric panel, it reads and formats the first cell of the answer
    with no guard: if reading or formatting raises [e], [main] ends
    with [e] and the query is the last thing it did, so the metric is
    not drawn and nothing after it runs.  An answer without rows raises
    [IndexError]; a NULL first cell under the currency format [",.2f"]
    raises [TypeError]. *)
Theorem metric_cell_is_read_unguarded (w : world) (conn : connection)
    (sql : string) (spec : fspec) (df : dataframe) :
  st_connection w "postgresql" "sql" = inr conn ->
  metric_format sql = Some spec ->
  run_query conn sql (Some 600) = inr df ->
  In (Query sql (Some 600)) (trace (main w)) ->
  (forall e, metric_failure spec df = Some e -> raises_after (main w) sql e)
  /\ (rows df = [] -> raises_after (main w) sql IndexError)
  /\ (spec = Comma2f -> iloc_cell df 0 0 = inr PyNone ->
      raises_after (main w) sql TypeError).
Proof.
  intros Hc Hs Hq Hin.
  assert (G : forall e, metric_failure spec df = Some e -> raises_after (main w) sql e).
  { intros e Hf. revert Hin. rewrite (main_connected w conn Hc). cbv zeta.
    set (rest := dispatch conn _ ;; footer).
    change (trace (?o, ?t)) with t. intros Hin.
    assert (Hin' : In (Query sql (Some 600)) (trace rest)).
    { apply in_app_or in Hin. destruct Hin as [Hin | Hin]; [ | exact Hin].
      unfold page_top in Hin.
      repeat (destruct Hin as [Hin | Hin]; [discriminate Hin | ]). destruct Hin. }
    destruct (dispatch_stops conn _ sql e (ex_intro _ spec (ex_intro _ df
                (conj Hs (conj Hq Hf)))) Hin') as [E [t Ht]].
    fold rest in E, Ht. split; [exact E | ].
    exists (page_top ++ t). change (trace (?o, ?t)) with t.
    rewrite Ht, app_assoc. reflexivity. }
  split; [exact G | split].
  - intros E. apply G, failure_on_no_rows, E.
  - intros -> E. apply G, failure_on_null, E.
Qed.

(** * The theorems at work on the sample worlds *)


(** The shop's Overview shows the four metrics of the scenario. *)
Lemma overview_scenario_witness :
  In (Draw col1 (Metric "Total Customers" "100"))
     (trace (main (world_of (inr shop) " Overview")))
  /\ In (Draw col2 (Metric "Unique Orders" "50"))
        (trace (main (world_of (inr shop) " Overview")))
  /\ In (Draw col3 (Metric "Order Records" "120"))
        (trace (main (world_of (inr shop) " Overview")))
  /\ In (Draw col4 (Metric "Total Revenue" "$5,000.00"))
        (trace (main (world_of (inr shop) " Overview"))).
Proof.
  apply (overview_scenario (world_of (inr shop) " Overview") shop
           (scalar "count" (PyInt 100)) (scalar "count" (PyInt 50))
           (scalar "count" (PyInt 120))
           (scalar "round" (float (5000 # 1) "5000.0"))
           {| exact := 5000 # 1; repr := "5000.0" |});
    reflexivity.
Defined.

(** Order Analysis when both grouped order queries return no rows: after
    the empty "Orders by Status" query the run goes on with "Orders Over
    Time" and ends normally. *)
Lemma empty_result_suppresses_chart_witness :
  df_empty {| columns := ["Status"; "Count"]; rows := [] |} = true
  /\ ending (sections_before OrdersByStatus shop_without_order_rows) = Done tt
  /\ main (world_of (inr shop_without_order_rows) " Order Analysis")
     = (ending (sections_after OrdersByStatus shop_without_order_rows ;; footer),
        page_top
        ++ trace (sections_before OrdersByStatus shop_without_order_rows)
        ++ [ Draw Page (panel_heading OrdersByStatus);
             Query (panel_sql OrdersByStatus) (Some 600) ]
        ++ trace (sections_after OrdersByStatus shop_without_order_rows ;; footer)).
Proof.
  split; [reflexivity | ]. split; [vm_compute; reflexivity | ].
  apply (empty_result_suppresses_chart
           (world_of (inr shop_without_order_rows) " Order Analysis")
           shop_without_order_rows OrdersByStatus
           {| columns := ["Status"; "Count"]; rows := [] |});
    reflexivity.
Defined.

(** Customer Analysis on the empty shop. *)
Lemma customer_analysis_without_customers_witness :
  main (world_of (inr empty_shop) " Customer Analysis")
  = (Done tt,
     page_top
     ++ [ Draw Page (Header "Customer Analysis");
          Query customers_by_state_sql (Some 600) ]
     ++ page_footer).
Proof.
  apply (customer_analysis_without_customers
           (world_of (inr empty_shop) " Customer Analysis") empty_shop
           {| columns := ["State"; "Customer Count"]; rows := [] |});
    reflexivity.
Defined.

(** A server that refuses the connection. *)
Lemma connection_failure_stops_witness :
  main (world_of (inl (OtherError "OperationalError")) " Overview")
  = (Stopped,
     [ Draw Page (Title "🛒 E-Commerce Data Analysis Dashboard");
       Draw Page (Markdown "---");
       Connect "postgresql" "sql";
       Draw Page (Error connection_error_message "🚨") ]).
Proof.
  apply (connection_failure_stops
           (world_of (inl (OtherError "OperationalError")) " Overview")
           (OtherError "OperationalError")).
  reflexivity.
Defined.

(** Overview on the empty shop: the payment sum is NULL and the run
    ends with [TypeError] at the fourth query. *)
Lemma metric_cell_is_read_unguarded_witness :
  iloc_cell (scalar "round" PyNone) 0 0 = inr PyNone
  /\ raises_after (main (world_of (inr empty_shop) " Overview"))
       "SELECT ROUND(SUM(payment_value)::NUMERIC, 2) FROM payments" TypeError.
Proof.
  split; [reflexivity | ].
  refine (proj2 (proj2 (metric_cell_is_read_unguarded
            (world_of (inr empty_shop) " Overview") empty_shop
            "SELECT ROUND(SUM(payment_value)::NUMERIC, 2) FROM payments"
            Comma2f (scalar "round" PyNone) eq_refl eq_refl eq_refl _))
          eq_refl eq_refl).
  vm_compute. repeat (first [left; reflexivity | right]).
Defined.

(** "Overview" without the leading space is none of the five names. *)
Lemma unknown_selection_runs_no_branch_witness :
  ~ In "Overview" analysis_types
  /\ dispatch shop "Overview" = (Done tt, []).
Proof.
  assert (Hn : ~ In "Overview" analysis_types).
  { cbn [In analysis_types]. intros H.
    repeat (destruct H as [H | H]; [discriminate H | ]). exact H. }
  split; [exact Hn | ].
  exact (proj1 (unknown_selection_runs_no_branch shop "Overview" Hn)).
Defined.

(** * Further properties of [main] *)

(** ** A query the database rejects *)

Lemma rejection_quiet {A} conn (m : M A) :
  (forall sql ttl, ~ In (Query sql ttl) (trace m)) -> stops_at_rejection conn m.
Proof. intros Hq sql e _ Hin. destruct (Hq _ _ Hin). Qed.

Lemma rejection_bind {A B} conn (m : M A) (k : A -> M B) :
  stops_at_rejection conn m -> (forall a, stops_at_rejection conn (k a)) ->
  stops_at_rejection conn (bind m k).
Proof.
  intros Hm Hk sql e Hb Hin. destruct m as [[a | e' | ] t].
  - rewrite bind_done in *. cbn [trace snd] in Hin.
    apply in_app_or in Hin. destruct Hin as [Hin | Hin].
    + destruct (Hm sql e Hb Hin) as [E _]. discriminate E.
    + destruct (Hk a sql e Hb Hin) as [E [t' Ht]]. split; [exact E | ].
      exists (t ++ t'). cbn [trace snd]. rewrite Ht, app_assoc. reflexivity.
  - destruct (Hm sql e Hb Hin) as [E [t' Ht]]. injection E as ->.
    split; [reflexivity | exists t'; exact Ht].
  - destruct (Hm sql e Hb Hin) as [E _]. discriminate E.
Qed.

Lemma rejection_within {A} conn (c : container) (m : M A) :
  stops_at_rejection conn m -> stops_at_rejection conn (within c m).
Proof.
  intros Hm sql e Hb Hin. rewrite trace_within in Hin.
  apply in_map_iff in Hin. destruct Hin as [ev [Hev Hin]].
  apply place_query in Hev. subst ev.
  destruct (Hm sql e Hb Hin) as [E [t Ht]]. split; [exact E | ].
  exists (map (place c) t). rewrite trace_within, Ht, map_app. reflexivity.
Qed.

Lemma rejection_conn_query conn sql ttl :
  stops_at_rejection conn (conn_query conn sql ttl).
Proof.
  intros sql' e Hr Hin. unfold raises_after. rewrite conn_query_eq in *.
  destruct Hin as [E | []]. injection E as -> ->. rewrite Hr.
  split; [reflexivity | exists []; reflexivity].
Qed.

Ltac rejection_walk :=
  repeat lazymatch goal with
  | |- stops_at_rejection _ (bind _ _) => apply rejection_bind; [ | intros ? ]
  | |- stops_at_rejection _ (within _ _) => apply rejection_within
  | |- stops_at_rejection _ (if ?b then _ else _) => destruct b
  | |- stops_at_rejection _ (let x := _ in _) => cbv zeta
  | |- stops_at_rejection _ (conn_query _ _ _) => apply rejection_conn_query
  | |- stops_at_rejection _ (lift ?r) =>
      apply rejection_quiet; rewrite trace_lift; intros ? ? []
  | |- stops_at_rejection _ (px _ _ _ _ _) =>
      apply rejection_quiet; unfold px; destruct (_ && _); intros ? ? []
  | |- stops_at_rejection _ (ret _) => apply rejection_quiet; intros ? ? []
  | |- stops_at_rejection _ (draw _) =>
      apply rejection_quiet;
      let E := fresh "E" in intros ? ? [E | []]; discriminate E
  end.

Lemma dispatch_rejection (conn : connection) (sel : string) :
  stops_at_rejection conn (dispatch conn sel ;; footer).
Proof. unfold_script. unfold_widgets. rejection_walk. Qed.

(** X1. The [try] of [main] covers the connection only.  With the
    connection open, when [main] sends a query and the database rejects
    it with the exception [e], [main] ends with [e] uncaught and the
    query is the last thing it did: no error message, nothing more of
    the report, no footer. *)
Theorem rejected_query_ends_the_run (w : world) (conn : connection)
    (sql : string) (e : exn) :
  st_connection w "postgresql" "sql" = inr conn ->
  run_query conn sql (Some 600) = inl e ->
  In (Query sql (Some 600)) (trace (main w)) ->
  raises_after (main w) sql e.
Proof.
  intros Hc Hr. rewrite (main_connected w conn Hc). cbv zeta.
  set (rest := dispatch conn _ ;; footer).
  change (trace (?o, ?t)) with t. intros Hin.
  assert (Hin' : In (Query sql (Some 600)) (trace rest)).
  { apply in_app_or in Hin. destruct Hin as [Hin | Hin]; [ | exact Hin].
    unfold page_top in Hin.
    repeat (destruct Hin as [Hin | Hin]; [discriminate Hin | ]). destruct Hin. }
  destruct (dispatch_rejection conn _ sql e Hr Hin') as [E [t Ht]].
  fold rest in E, Ht. split; [exact E | ].
  exists (page_top ++ t). change (trace (?o, ?t)) with t.
  rewrite Ht, app_assoc. reflexivity.
Qed.

(** ** The footer *)

Lemma closing_line_blind : placement_blind not_closing_line.
Proof.
  intros c [[] el | | ] H; simpl; try exact H.
  unfold not_closing_line, closing_line in *. intros E. apply H.
  injection E as -> ->. reflexivity.
Qed.

Lemma dispatch_no_closing_line (conn : connection) (sel : string) :
  emits not_closing_line (dispatch conn sel).
Proof.
  unfold_script. unfold_widgets.
  emits_walk closing_line_blind ltac:(discriminate).
Qed.

Lemma closing_line_in_footer : In closing_line page_footer.
Proof. vm_compute. repeat (first [left; reflexivity | right]). Qed.

(** X2. In every world, [main] ends normally exactly when the last line
    of the footer is drawn, and then the whole footer is the last thing
    drawn: a run cut short by [st.stop()] or by an exception shows no
    footer. *)
Theorem footer_marks_normal_ending (w : world) :
  (ending (main w) = Done tt <-> In closing_line (trace (main w)))
  /\ (ending (main w) = Done tt -> exists t, trace (main w) = t ++ page_footer).
Proof.
  destruct (st_connection w "postgresql" "sql") as [e | conn] eqn:Hc.
  - assert (E : main w = (Stopped,
                 [ Draw Page (Title "🛒 E-Commerce Data Analysis Dashboard");
                   Draw Page (Markdown "---");
                   Connect "postgresql" "sql";
                   Draw Page (Error connection_error_message "🚨") ])).
    { unfold main, connect. rewrite Hc. reflexivity. }
    rewrite E. split; [split | ]; try discriminate.
    intros Hin. cbn [trace snd] in Hin.
    repeat (destruct Hin as [Hin | Hin]; [discriminate Hin | ]). destruct Hin.
  - rewrite (main_connected w conn Hc). cbv zeta.
    set (sel := selectbox_answer w _ _).
    pose proof (dispatch_no_closing_line conn sel) as Hn.
    change (trace (?o, ?t)) with t. change (ending (?o, ?t)) with o.
    assert (Htop : ~ In closing_line page_top).
    { unfold page_top. intros Hin.
      repeat (destruct Hin as [Hin | Hin]; [discriminate Hin | ]). destruct Hin. }
    destruct (dispatch conn sel) as [[[] | e | ] t] eqn:Hd.
    + rewrite bind_done. change (trace (?o, ?t)) with t.
      change (ending (?o, ?t)) with o. split; [split | ].
      * intros _. apply in_or_app. right. apply in_or_app. right.
        exact closing_line_in_footer.
      * intros _. reflexivity.
      * intros _. exists (page_top ++ t). rewrite app_assoc. reflexivity.
    + cbn [bind trace ending fst snd]. split; [split | ]; try discriminate.
      intros [Hin | Hin]%in_app_or; [destruct (Htop Hin) | ].
      exfalso. exact (proj1 (Forall_forall _ _) Hn _ Hin eq_refl).
    + cbn [bind trace ending fst snd]. split; [split | ]; try discriminate.
      intros [Hin | Hin]%in_app_or; [destruct (Htop Hin) | ].
      exfalso. exact (proj1 (Forall_forall _ _) Hn _ Hin eq_refl).
Qed.

(** ** One report per run *)

Lemma header_blind (h : string) : placement_blind (only_header h).
Proof. intros c [[] [] | | ]; simpl; auto. Qed.

Lemma report_only_header (conn : connection) (r : report) :
  emits (only_header (report_header r)) (dispatch conn (report_name r) ;; footer).
Proof.
  rewrite dispatch_report.
  destruct r; unfold_script; unfold_widgets;
    emits_walk_with ltac:(apply header_blind) ltac:(fun H => idtac)
      ltac:(first [exact I | reflexivity]).
Qed.

Lemma report_starts_with_header (conn : connection) (r : report) :
  exists t,
    trace (dispatch conn (report_name r) ;; footer)
    = Draw Page (Header (report_header r)) :: t.
Proof.
  rewrite dispatch_report.
  destruct (trace_bind
              (match r with
               | Overview => overview conn
               | CustomerAnalysis => customer_analysis conn
               | OrderAnalysis => order_analysis conn
               | SalesRevenue => sales_revenue conn
               | TimeSeriesAnalysis => time_series conn
               end) (fun _ => footer)) as [t [-> _]].
  destruct r; unfold_script; unfold st_header, draw, emit;
    rewrite bind_done; eexists; reflexivity.
Qed.

(** X3. With the connection open and the name of report [r] selected,
    the first thing drawn after the top of the page is the header of
    [r], and no header of another report is drawn anywhere in the run:
    each of the five names leads to its own branch and to no other. *)
Theorem selected_report_is_the_one_drawn (w : world) (conn : connection)
    (r : report) :
  st_connection w "postgresql" "sql" = inr conn ->
  selectbox_answer w "Choose Analysis Type:" analysis_types = report_name r ->
  (exists t, trace (main w)
             = page_top ++ Draw Page (Header (report_header r)) :: t)
  /\ (forall c h, In (Draw c (Header h)) (trace (main w)) ->
        h = report_header r).
Proof.
  intros Hc Hs. rewrite (main_connected w conn Hc), Hs. cbv zeta.
  change (trace (?o, ?t)) with t. split.
  - destruct (report_starts_with_header conn r) as [t ->]. exists t. reflexivity.
  - intros c h [Hin | Hin]%in_app_or.
    + unfold page_top in Hin.
      repeat (destruct Hin as [Hin | Hin]; [discriminate Hin | ]). destruct Hin.
    + exact (proj1 (Forall_forall _ _) (report_only_header conn r) _ Hin).
Qed.

(** ** Charts and tables *)

Lemma px_done k df x y t (fig : figure) :
  ending (px k df x y t) = Done fig ->
  fig = {| kind := k; data := df; x_col := x; y_col := y; title := t;
           tickangle := None |}
  /\ has_column df x = true /\ has_column df y = true.
Proof.
  unfold px. destruct (has_column df x) eqn:Hx, (has_column df y) eqn:Hy;
    unfold ending; simpl; try discriminate.
  intros E. injection E as <-. auto.
Qed.

Lemma data_blind : placement_blind drawn_from_data.
Proof. intros c [[] [] | | ]; simpl; auto. Qed.

Ltac data_leaf :=
  cbn [drawn_from_data];
  first
    [ exact I
    | match goal with
      | Hb : negb (df_empty ?df) = true |- df_empty ?df = false =>
          apply negb_true_iff; exact Hb
      | Hb : negb (df_empty ?df) = true,
        H : ending (px _ ?df _ _ _) = Done ?fig |- _ =>
          let Hx := fresh "Hx" in
          let Hy := fresh "Hy" in
          destruct (px_done _ _ _ _ _ _ H) as [-> [Hx Hy]];
          cbn [update_xaxes data x_col y_col];
          repeat split; try assumption; apply negb_true_iff; exact Hb
      end ].

Lemma dispatch_data (conn : connection) (sel : string) :
  emits drawn_from_data (dispatch conn sel ;; footer).
Proof.
  unfold_script. unfold_widgets.
  repeat lazymatch goal with
  | |- emits _ (bind _ _) =>
      apply emits_bind;
      [ | let a := fresh "a" in let H := fresh "H" in intros a H ]
  | |- emits _ (within _ _) => apply emits_within; [ exact data_blind | ]
  | |- emits _ (if ?b then _ else _) =>
      let Hb := fresh "Hb" in destruct b eqn:Hb
  | |- emits _ (let x := _ in _) => cbv zeta
  | |- emits _ (ret _) => apply emits_ret
  | |- emits _ (lift _) => apply emits_lift
  | |- emits _ (px _ _ _ _ _) => apply emits_px
  | |- emits _ (conn_query _ _ _) => apply emits_conn_query; exact I
  | |- emits _ (draw _) => apply emits_draw; data_leaf
  end.
Qed.

(** X4. In every world, whatever the selection: each chart [main] draws
    is drawn over the full container width from a frame that is not
    empty and has both columns the chart names for its axes, and each
    table is drawn from a frame that is not empty. *)
Theorem charts_and_tables_have_data (w : world) :
  Forall drawn_from_data (trace (main w)).
Proof.
  destruct (st_connection w "postgresql" "sql") as [e | conn] eqn:Hc.
  - unfold main, connect. rewrite Hc. repeat constructor.
  - rewrite (main_connected w conn Hc). cbv zeta.
    change (trace (?o, ?t)) with t. apply Forall_app. split.
    + repeat constructor.
    + apply dispatch_data.
Qed.

(** ** No query twice *)

Lemma distinct_NoDup (l : list string) : distinct l = true -> NoDup l.
Proof.
  induction l as [| s l IH]; simpl; [constructor | ].
  intros [Hs Hl]%andb_prop. constructor; [ | exact (IH Hl)].
  intros Hin. apply negb_true_iff in Hs.
  assert (existsb (String.eqb s) l = true); [ | congruence].
  apply existsb_exists. exists s. split; [exact Hin | apply String.eqb_refl].
Qed.

Lemma report_queries_distinct (r : report) : NoDup (report_queries r).
Proof. apply distinct_NoDup. destruct r; vm_compute; reflexivity. Qed.

Lemma name_of_some_report (sel : string) :
  In sel analysis_types -> exists r, sel = report_name r.
Proof.
  cbn [In analysis_types].
  intros [<- | [<- | [<- | [<- | [<- | []]]]]];
    [ exists Overview | exists CustomerAnalysis | exists OrderAnalysis
    | exists SalesRevenue | exists TimeSeriesAnalysis ]; reflexivity.
Qed.

(** X5. In every world, whatever the selection, one run of [main] sends
    no SQL text twice. *)
Theorem no_query_sent_twice (w : world) :
  NoDup (queries (trace (main w))).
Proof.
  destruct (st_connection w "postgresql" "sql") as [e | conn] eqn:Hc.
  - unfold main, connect. rewrite Hc. constructor.
  - rewrite (main_connected w conn Hc). cbv zeta.
    set (sel := selectbox_answer w _ _).
    change (trace (?o, ?t)) with t.
    change (queries (page_top ++ ?t)) with (queries t).
    destruct (in_dec string_dec sel analysis_types) as [Hin | Hn].
    + destruct (name_of_some_report sel Hin) as [r ->].
      destruct (report_issues conn r) as [[rest Hp] _].
      pose proof (report_queries_distinct r) as Hd. rewrite Hp in Hd.
      exact (NoDup_app_remove_r _ _ Hd).
    + rewrite (dispatch_unknown conn sel Hn). constructor.
Qed.

(** ** What the metrics show *)

Example shown_integer_ex : shown_integer "-1,234,567" = Some (-1234567).
Proof. reflexivity. Qed.
Example shown_amount_ex : shown_amount "$5,000.00" = Some (500000 # 100).
Proof. reflexivity. Qed.
Example shown_amount_ex2 : shown_amount "$-0.07" = Some (-7 # 100).
Proof. reflexivity. Qed.

Lemma metric_from_cell_blind conn : placement_blind (metric_from_cell conn).
Proof. intros c [[] el | | ]; simpl; auto. Qed.

Ltac cell_leaf :=
  cbn [metric_from_cell];
  first
    [ exact I
    | match goal with
      | Hq : run_query _ ?sql _ = inr ?df, Hc : iloc_cell ?df 0 0 = inr ?v,
        Hf : py_format ?spec ?v = inr ?s |- shows_first_cell _ _ _ =>
          exists sql, spec, df, v, s;
          repeat split; first [assumption | reflexivity]
      end ].

Lemma dispatch_cells (conn : connection) (sel : string) :
  emits (metric_from_cell conn) (dispatch conn sel ;; footer).
Proof.
  unfold_script. unfold_widgets. unfold ttl600.
  emits_walk_with ltac:(apply metric_from_cell_blind)
    ltac:(fun H => known_answer H) cell_leaf.
Qed.

Lemma main_cells (w : world) (conn : connection) :
  st_connection w "postgresql" "sql" = inr conn ->
  Forall (metric_from_cell conn) (trace (main w)).
Proof.
  intros Hc. rewrite (main_connected w conn Hc). cbv zeta.
  change (trace (?o, ?t)) with t. apply Forall_app. split.
  - repeat constructor.
  - apply dispatch_cells.
Qed.

(** X6. With the connection open, every metric [main] draws shows the
    first cell of the answer to the query of its label, put through the
    format of that query, with only the literal text of its f-string
    around it ("$" before a currency, "x" after the duplicate factor):
    the script computes nothing of its own. *)
Theorem metric_shows_first_cell (w : world) (conn : connection)
    (c : container) (label value : string) :
  st_connection w "postgresql" "sql" = inr conn ->
  In (Draw c (Metric label value)) (trace (main w)) ->
  shows_first_cell conn label value.
Proof.
  intros Hc Hin.
  exact (proj1 (Forall_forall _ _) (main_cells w conn Hc) _ Hin).
Qed.

Lemma read_digits_digits (n : N) : read_digits (digits n) = Some n.
Proof.
  unfold read_digits, digits, chars, text.
  rewrite string_of_list_ascii_of_string.
  rewrite NilZero.usu.
  - simpl. f_equal. apply DecimalN.Unsigned.of_to.
  - destruct n; [discriminate | apply DecimalPos.Unsigned.to_uint_nonnil].
Qed.

Lemma digit_not_comma (c : ascii) :
  is_digit c = true -> negb (Ascii.eqb c ",") = true.
Proof.
  intros H. destruct (Ascii.eqb_spec c ","); [subst; discriminate H | reflexivity].
Qed.

Lemma without_commas_digits (r : list ascii) :
  Forall (fun c => is_digit c = true) r -> without_commas r = r.
Proof.
  induction 1 as [| c r Hc Hr IH]; [reflexivity | ].
  unfold without_commas in *. simpl. rewrite (digit_not_comma c Hc), IH.
  reflexivity.
Qed.

Lemma without_commas_group3 (r : list ascii) :
  Forall (fun c => is_digit c = true) r -> without_commas (group3 r) = r.
Proof.
  induction r as [| a | a b | a b c | a b c d rest IH] using by_threes;
    intros Hd; try (apply without_commas_digits; exact Hd).
  inversion Hd as [| ? ? Ha Hd1]; inversion Hd1 as [| ? ? Hb Hd2];
    inversion Hd2 as [| ? ? Hc Hd3]; subst.
  change (group3 (a :: b :: c :: d :: rest))
    with (a :: b :: c :: ","%char :: group3 (d :: rest)).
  unfold without_commas in *. cbn [filter].
  rewrite (digit_not_comma a Ha), (digit_not_comma b Hb), (digit_not_comma c Hc).
  cbn [Ascii.eqb Bool.eqb negb]. rewrite (IH Hd3). reflexivity.
Qed.

Lemma without_commas_thousands (n : N) :
  without_commas (thousands (digits n)) = digits n.
Proof.
  unfold thousands, without_commas.
  rewrite filter_rev. fold (without_commas (group3 (rev (digits n)))).
  rewrite without_commas_group3 by apply Forall_rev, digits_all.
  apply rev_involutive.
Qed.

Lemma is_negative_sign (b : bool) (l : list ascii) :
  Forall digit_or_comma l -> is_negative (sign b ++ l) = b.
Proof.
  intros Hl. destruct b; [reflexivity | ]. simpl.
  destruct Hl as [| c l [Hc | ->] Hl]; [reflexivity | | reflexivity].
  unfold is_negative. destruct c as [[] [] [] [] [] [] [] []]; try reflexivity.
  discriminate Hc.
Qed.

(** Reading back an int formatted with [","] gives the int. *)
Lemma shown_integer_int_comma (z : Z) : shown_integer (int_comma z) = Some z.
Proof.
  unfold shown_integer, int_comma. cbv zeta. rewrite chars_text.
  rewrite unsigned_sign, is_negative_sign by apply thousands_chars.
  rewrite without_commas_thousands, read_digits_digits.
  f_equal. rewrite N2Z.inj_abs_N.
  destruct (Z.ltb_spec z 0); lia.
Qed.

Lemma two_digits_read_table : forallb two_digits_read (seq 0 100) = true.
Proof. vm_compute. reflexivity. Qed.

Lemma read_two_digits (n : Z) :
  0 <= n < 100 -> read_digits (two_digits n) = Some (Z.to_N n).
Proof.
  intros Hn.
  assert (H : two_digits_read (Z.to_nat n) = true).
  { apply (proj1 (forallb_forall two_digits_read (seq 0 100)) two_digits_read_table).
    apply in_seq. lia. }
  unfold two_digits_read in H. rewrite Z2Nat.id in H by lia.
  destruct (read_digits (two_digits n)) as [m | ]; [ | discriminate].
  apply N.eqb_eq in H. subst m. f_equal. lia.
Qed.

Lemma hundredths_nonneg (q : Q) : 0 <= hundredths q.
Proof.
  unfold hundredths, round_half_even.
  assert (0 <= Z.abs (Qnum q) * 100 / Zpos (Qden q)) by (apply Z.div_pos; lia).
  destruct (_ ?= _); [destruct (Z.even _) | | ]; lia.
Qed.

(** Reading back a number formatted with [",.2f"] behind a dollar sign
    gives its hundredths, with the sign of the number. *)
Lemma shown_amount_fixed2 (q : Q) :
  shown_amount ("$" ++ fixed2 true q)
  = Some ((if Qnum q <? 0 then - hundredths q else hundredths q) # 100).
Proof.
  unfold shown_amount, fixed2.
  change (chars ("$" ++ ?s)) with ("$"%char :: chars s).
  rewrite chars_text, app_assoc.
  pose proof (hundredths_nonneg q) as H0.
  pose proof (hundredths_cents q) as Hc.
  destruct (two_digits_shape _ Hc) as [d1 [d2 [E [H1 H2]]]].
  assert (Hr := read_two_digits _ Hc). rewrite E in *.
  assert (Hw := thousands_chars (Z.to_N (hundredths q / 100))).
  rewrite at_point_app.
  - rewrite unsigned_sign, is_negative_sign by exact Hw.
    rewrite without_commas_thousands, read_digits_digits, Hr. cbv zeta.
    assert (0 <= hundredths q / 100) by (apply Z.div_pos; lia).
    replace (Z.of_N (Z.to_N (hundredths q / 100) * 100 + Z.to_N (hundredths q mod 100)))
      with (hundredths q).
    + reflexivity.
    + rewrite N2Z.inj_add, N2Z.inj_mul, !Z2N.id by lia.
      pose proof (Z.div_mod (hundredths q) 100). lia.
  - apply Forall_app. split.
    + destruct (Qnum q <? 0); repeat constructor. discriminate.
    + eapply Forall_impl; [ | exact Hw]. intros c [Hd | ->] Ec; [ | discriminate].
      subst c. discriminate Hd.
Qed.

(** [hundredths] is within one half of a hundred times the absolute
    value. *)
Lemma hundredths_nearest (n : Z) (d : positive) :
  let h := hundredths (n # d) in
  2 * Z.abs (h * Zpos d - Z.abs n * 100) <= Zpos d.
Proof.
  unfold hundredths, round_half_even. simpl Qnum. simpl Qden.
  set (m := Z.abs n * 100). set (D := Zpos d).
  assert (HD : 0 < D) by (unfold D; lia).
  pose proof (Z.div_mod m D ltac:(lia)) as Hdm.
  pose proof (Z.mod_pos_bound m D HD) as Hb.
  set (qu := m / D) in *. set (r := m mod D) in *.
  destruct (Z.compare_spec (2 * r) D) as [He | Hl | Hg];
    [destruct (Z.even qu) | | ]; cbv zeta; nia.
Qed.

(** What is known of a count or currency metric once the answer of its
    query is known. *)
Lemma shown_text (conn : connection) (label value sql : string)
    (df : dataframe) (v : pyval) :
  In label (count_labels ++ currency_labels) ->
  metric_query label = Some sql ->
  run_query conn sql (Some 600) = inr df ->
  iloc_cell df 0 0 = inr v ->
  shows_first_cell conn label value ->
  (In label count_labels -> py_format Comma v = inr value)
  /\ (In label currency_labels ->
      exists s, py_format Comma2f v = inr s /\ value = ("$" ++ s)%string).
Proof.
  intros Hl Hm Hq Hc [sql' [spec [df' [v' [s [H1 [H2 [H3 [H4 [H5 H6]]]]]]]]]].
  rewrite Hm in H1. injection H1 as <-.
  rewrite Hq in H3. injection H3 as <-.
  rewrite Hc in H4. injection H4 as <-.
  cbn [In app count_labels currency_labels] in Hl.
  repeat (destruct Hl as [<- | Hl];
          [ vm_compute in Hm; injection Hm as <-;
            vm_compute in H2; injection H2 as <-;
            change (decorate _ s) with s in H6 || change (decorate _ s) with ("$" ++ s)%string in H6;
            subst value;
            split; intros Hin;
            first
              [ exact H5
              | exists s; split; [exact H5 | reflexivity]
              | exfalso; cbn [In count_labels currency_labels] in Hin;
                repeat (destruct Hin as [Hin | Hin];
                        [apply (proj2 (String.eqb_eq _ _)) in Hin;
                         vm_compute in Hin; discriminate Hin | ]);
                exact Hin ]
          | ]).
  destruct Hl.
Qed.

(** X7. With the connection open: when the query of a count metric
    answers with the int [z] in its first cell, every such metric drawn
    reads back as [z]: the separators change nothing of the number. *)
Theorem count_metric_shows_the_count (w : world) (conn : connection)
    (c : container) (label value sql : string) (df : dataframe) (z : Z) :
  st_connection w "postgresql" "sql" = inr conn ->
  In label count_labels ->
  metric_query label = Some sql ->
  run_query conn sql (Some 600) = inr df ->
  iloc_cell df 0 0 = inr (PyInt z) ->
  In (Draw c (Metric label value)) (trace (main w)) ->
  shown_integer value = Some z.
Proof.
  intros Hc Hl Hm Hq Hv Hin.
  pose proof (proj1 (Forall_forall _ _) (main_cells w conn Hc) _ Hin) as Hs.
  cbn [metric_from_cell] in Hs.
  destruct (shown_text conn label value sql df (PyInt z)
              ltac:(apply in_or_app; left; exact Hl) Hm Hq Hv Hs) as [Hf _].
  specialize (Hf Hl). injection Hf as <-. apply shown_integer_int_comma.
Qed.

Lemma whole_cents (h n k D : Z) :
  0 < D -> 0 <= h ->
  2 * Z.abs (h * D - Z.abs n * 100) <= D ->
  n * 100 = k * D ->
  (if n <? 0 then - h else h) * D = n * 100.
Proof.
  intros HD Hh Hn Hk.
  assert (E : Z.abs (h * D - Z.abs n * 100) = Z.abs (h - Z.abs k) * D).
  { rewrite <- (Z.abs_eq D) at 2 by lia. rewrite <- Z.abs_mul. f_equal.
    assert (Z.abs n * 100 = Z.abs k * D).
    { rewrite <- (Z.abs_eq 100), <- (Z.abs_eq D) by lia.
      rewrite <- !Z.abs_mul. f_equal. exact Hk. }
    lia. }
  rewrite E in Hn.
  assert (Hz : Z.abs (h - Z.abs k) = 0) by nia.
  assert (Hh' : h = Z.abs k) by lia. subst h.
  destruct (Z.ltb_spec n 0); nia.
Qed.

Lemma amount_near (q : Q) :
  let a := (if Qnum q <? 0 then - hundredths q else hundredths q) # 100 in
  (- (1 # 200) <= a - q <= 1 # 200)%Q
  /\ (forall k : Z, q == k # 100 -> a == q).
Proof.
  destruct q as [n d]. cbv zeta.
  pose proof (hundredths_nearest n d) as Hn. cbv zeta in Hn.
  pose proof (hundredths_nonneg (n # d)) as H0.
  set (h := hundredths (n # d)) in *. cbn [Qnum].
  unfold Qle, Qminus, Qplus, Qopp, Qeq. cbn [Qnum Qden].
  rewrite ?Pos2Z.inj_mul.
  assert (Hd : 0 < Zpos d) by lia.
  set (D := Zpos d) in *.
  destruct (Z.ltb_spec n 0) as [Hneg | Hpos].
  - split; [split; nia | ]. intros k Hk.
    pose proof (whole_cents h n k D Hd H0 Hn Hk) as Hw.
    destruct (Z.ltb_spec n 0); [exact Hw | lia].
  - split; [split; nia | ]. intros k Hk.
    pose proof (whole_cents h n k D Hd H0 Hn Hk) as Hw.
    destruct (Z.ltb_spec n 0); [lia | exact Hw].
Qed.

(** X8. With the connection open: when the query of a currency metric
    answers with a finite float in its first cell, every such metric
    drawn reads back as an amount within half a cent of the float's
    exact value, and as the exact value itself when that is a whole
    number of cents. *)
Theorem currency_metric_shows_the_amount (w : world) (conn : connection)
    (c : container) (label value sql : string) (df : dataframe) (f : pyfloat) :
  st_connection w "postgresql" "sql" = inr conn ->
  In label currency_labels ->
  metric_query label = Some sql ->
  run_query conn sql (Some 600) = inr df ->
  iloc_cell df 0 0 = inr (PyFloat f) ->
  In (Draw c (Metric label value)) (trace (main w)) ->
  exists a,
    shown_amount value = Some a
    /\ (- (1 # 200) <= a - exact f <= 1 # 200)%Q
    /\ (forall k : Z, exact f == k # 100 -> a == exact f).
Proof.
  intros Hc Hl Hm Hq Hv Hin.
  pose proof (proj1 (Forall_forall _ _) (main_cells w conn Hc) _ Hin) as Hs.
  cbn [metric_from_cell] in Hs.
  destruct (shown_text conn label value sql df (PyFloat f)
              ltac:(apply in_or_app; right; exact Hl) Hm Hq Hv Hs) as [_ Hf].
  destruct (Hf Hl) as [s [Hs5 ->]]. injection Hs5 as <-.
  eexists. split; [apply shown_amount_fixed2 | apply amount_near].
Qed.

(** ** The format of each kind of metric *)

Lemma unsigned_sign_digits (b : bool) (n : N) :
  unsigned (sign b ++ digits n) = digits n.
Proof.
  apply unsigned_sign. eapply Forall_impl; [ | apply digits_all].
  intros c Hc. left. exact Hc.
Qed.

(** A number formatted with [".2f"] is digits, a point and two decimals,
    with no separator. *)
Lemma fixed2_plain_two_decimals (q : Q) :
  plain_two_decimals (fixed2 false q) = true.
Proof.
  unfold plain_two_decimals, fixed2. rewrite chars_text, app_assoc.
  destruct (two_digits_shape _ (hundredths_cents q)) as [d1 [d2 [-> [H1 H2]]]].
  set (n := Z.to_N (hundredths q / 100)).
  rewrite at_point_app.
  - rewrite unsigned_sign_digits, H1, H2.
    pose proof (digits_nonempty n) as Hne.
    pose proof (proj2 (forallb_forall is_digit (digits n))
                  (proj1 (Forall_forall _ _) (digits_all n))) as Hall.
    destruct (digits n); [congruence | ]. rewrite Hall. reflexivity.
  - apply Forall_app. split.
    + destruct (Qnum q <? 0); repeat constructor. discriminate.
    + eapply Forall_impl; [ | apply digits_all]. intros c Hc E.
      subst c. discriminate Hc.
Qed.

Lemma finite_cases (v : pyval) :
  finite_number v -> (exists z, v = PyInt z) \/ (exists f, v = PyFloat f).
Proof. destruct v; simpl; intros H; try contradiction; eauto. Qed.

Lemma fixed2f_of_number (v : pyval) (s : string) :
  finite_number v -> py_format Fixed2f v = inr s -> plain_two_decimals s = true.
Proof.
  intros [[z ->] | [f ->]]%finite_cases; simpl.
  - destruct (float_of_int z); [discriminate | ].
    intros E. injection E as <-. apply fixed2_plain_two_decimals.
  - intros E. injection E as <-. apply fixed2_plain_two_decimals.
Qed.

Ltac other_label :=
  let E := fresh "E" in
  intros E; exfalso;
  first
    [ apply (proj2 (String.eqb_eq _ _)) in E; vm_compute in E; discriminate E
    | cbn [In count_labels currency_labels] in E;
      repeat (destruct E as [E | E];
              [apply (proj2 (String.eqb_eq _ _)) in E; vm_compute in E;
               discriminate E | ]);
      exact E ].

(** C5, as the script has it.  With the connection open, every metric
    [main] draws is a count, a currency or a ratio metric, made from the
    first cell of the answer to its query.  A count metric is the cell
    under the format [","]: for an int, an integer with thousands
    separators.  A currency metric is "$" and the cell under [",.2f"]:
    for an int or a finite float, a whole part with thousands
    separators, a point and exactly two decimals.  The two ratio metrics
    carry no thousands separators: "Orders per Customer" is the cell
    under [".2f"] (for an int or a finite float: digits, a point, two
    decimals), "Duplicate Factor" is the cell as plain text, then "x". *)
Theorem metrics_are_formatted_by_kind (w : world) (conn : connection)
    (c : container) (label value : string) :
  st_connection w "postgresql" "sql" = inr conn ->
  In (Draw c (Metric label value)) (trace (main w)) ->
  exists sql df v,
    metric_query label = Some sql
    /\ run_query conn sql (Some 600) = inr df
    /\ iloc_cell df 0 0 = inr v
    /\ In label (count_labels ++ currency_labels ++ ratio_labels)
    /\ (In label count_labels ->
        py_format Comma v = inr value
        /\ (forall z, v = PyInt z -> well_grouped value = true))
    /\ (In label currency_labels ->
        (exists s, py_format Comma2f v = inr s /\ value = ("$" ++ s)%string)
        /\ (finite_number v -> dollar_format value = true))
    /\ (label = "Orders per Customer" ->
        py_format Fixed2f v = inr value
        /\ (finite_number v -> plain_two_decimals value = true))
    /\ (label = "Duplicate Factor" ->
        exists s, py_format Plain v = inr s /\ value = (s ++ "x")%string).
Proof.
  intros Hc Hin.
  pose proof (proj1 (Forall_forall _ _) (main_cells w conn Hc) _ Hin) as Hs.
  cbn [metric_from_cell] in Hs.
  destruct Hs as [sql [spec [df [v [s [H1 [H2 [H3 [H4 [H5 H6]]]]]]]]]].
  exists sql, df, v. split; [exact H1 | ]. split; [exact H3 | ].
  split; [exact H4 | ].
  unfold metric_query in H1.
  repeat match type of H1 with
  | (if (label =? ?l)%string then _ else _) = _ =>
      destruct (String.eqb_spec label l) as [-> | _];
      [ injection H1 as <-; vm_compute in H2; injection H2 as <-;
        (change (decorate _ s) with s in H6
         || change (decorate _ s) with ("$" ++ s)%string in H6
         || change (decorate _ s) with (s ++ "x")%string in H6);
        subst value;
        split; [label_listed | ];
        split;
          [ first [ other_label
                  | intros _; split;
                    [exact H5
                    | intros z ->; injection H5 as <-;
                      apply int_comma_well_grouped] ] | ];
        split;
          [ first [ other_label
                  | intros _; split;
                    [exists s; split; [exact H5 | reflexivity]
                    | intros Hf;
                      exact (comma2f_of_number v s (finite_cases v Hf) H5)] ] | ];
        split;
          [ first [ other_label
                  | intros _; split;
                    [exact H5
                    | intros Hf; exact (fixed2f_of_number v s Hf H5)] ]
          | first [ other_label
                  | intros _; exists s; split; [exact H5 | reflexivity] ] ]
      | ]
  end.
  discriminate H1.
Qed.

(** C5 as stated fails twice.  With 2469 orders from two customers,
    "Orders per Customer" is drawn as "1234.50", four digits in a row;
    with a payment whose value is NaN, "Total Revenue" is drawn as
    "$nan". *)
Lemma metrics_not_all_formatted :
  ~ every_metric_separated
      (trace (main (world_of (inr wholesale) " Order Analysis")))
  /\ ~ every_currency_in_dollar_format
        (trace (main (world_of (inr shop_with_nan_payment) " Overview"))).
Proof.
  split.
  - exact ratio_metric_without_separators.
  - intros H.
    specialize (H col4 "Total Revenue" "$nan").
    assert (Hin : In (Draw col4 (Metric "Total Revenue" "$nan"))
                    (trace (main (world_of (inr shop_with_nan_payment) " Overview")))).
    { vm_compute. repeat (first [left; reflexivity | right]). }
    specialize (H Hin ltac:(left; reflexivity)). vm_compute in H. discriminate H.
Qed.

(** The shop's revenue is a dollar amount; its ratio of orders per
    customer has two decimals and no separator. *)
Lemma metrics_are_formatted_by_kind_witness :
  In (Draw col2 (Metric "Orders per Customer" "1.25"))
     (trace (main (world_of (inr shop) " Order Analysis")))
  /\ exists sql df v,
       metric_query "Orders per Customer" = Some sql
       /\ run_query shop sql (Some 600) = inr df
       /\ iloc_cell df 0 0 = inr v
       /\ py_format Fixed2f v = inr "1.25".
Proof.
  assert (Hin : In (Draw col2 (Metric "Orders per Customer" "1.25"))
                  (trace (main (world_of (inr shop) " Order Analysis")))).
  { vm_compute. repeat (first [left; reflexivity | right]). }
  split; [exact Hin | ].
  destruct (metrics_are_formatted_by_kind
              (world_of (inr shop) " Order Analysis") shop col2
              "Orders per Customer" "1.25" eq_refl Hin)
    as [sql [df [v [H1 [H2 [H3 [_ [_ [_ [H7 _]]]]]]]]]].
  exists sql, df, v. repeat split; try assumption.
  exact (proj1 (H7 eq_refl)).
Defined.

(** ** The module's last statement *)

(** X9. The module's last statement reads the global [_name_], with
    single underscores.  The module binds no such name, so unless the
    runtime provides one, running the module sets the page up, injects
    the style sheet and ends with [NameError]: [main] is never called,
    whatever the world. *)
Theorem module_never_calls_main (provided : string -> option binding)
    (w : world) :
  provided "_name_" = None ->
  module_body provided w = (Raised (OtherError "NameError"), module_setup)
  /\ forall e, ~ In (InMain e) (snd (module_body provided w)).
Proof.
  intros Hp.
  assert (E : module_body provided w
              = (Raised (OtherError "NameError"), module_setup)).
  { unfold module_body, load_name.
    change (bound module_bindings "_name_") with (@None binding).
    rewrite Hp. reflexivity. }
  split; [exact E | ]. rewrite E. intros e Hin. cbn [snd module_setup] in Hin.
  repeat (destruct Hin as [Hin | Hin]; [discriminate Hin | ]). exact Hin.
Qed.

(** ** The further properties on the sample worlds *)

(** Order Analysis on the empty shop: the ratio of orders per customer
    divides by zero, the database rejects the query and the run ends
    with its exception. *)
Lemma rejected_query_ends_the_run_witness :
  run_query empty_shop
    "SELECT ROUND((COUNT(DISTINCT order_id) * 1.0 / COUNT(DISTINCT customer_id))::NUMERIC, 2) FROM orders"
    (Some 600)
  = inl (OtherError "ProgrammingError")
  /\ raises_after (main (world_of (inr empty_shop) " Order Analysis"))
       "SELECT ROUND((COUNT(DISTINCT order_id) * 1.0 / COUNT(DISTINCT customer_id))::NUMERIC, 2) FROM orders"
       (OtherError "ProgrammingError").
Proof.
  split; [reflexivity | ].
  apply (rejected_query_ends_the_run
           (world_of (inr empty_shop) " Order Analysis") empty_shop).
  - reflexivity.
  - reflexivity.
  - vm_compute. repeat (first [left; reflexivity | right]).
Defined.

(** The shop's Sales & Revenue report starts with its own header. *)
Lemma selected_report_is_the_one_drawn_witness :
  exists t,
    trace (main (world_of (inr shop) " Sales & Revenue"))
    = page_top ++ Draw Page (Header "Sales & Revenue Analysis") :: t.
Proof.
  apply (selected_report_is_the_one_drawn
           (world_of (inr shop) " Sales & Revenue") shop SalesRevenue);
    reflexivity.
Defined.

(** The shop's duplicate factor is the cell 2.4 as text, then "x". *)
Lemma metric_shows_first_cell_witness :
  shows_first_cell shop "Duplicate Factor" "2.4x".
Proof.
  apply (metric_shows_first_cell
           (world_of (inr shop) " Order Analysis") shop col_b).
  - reflexivity.
  - vm_compute. repeat (first [left; reflexivity | right]).
Defined.

(** The wholesale shop's 2469 orders are shown as "2,469". *)
Lemma count_metric_shows_the_count_witness :
  In (Draw col1 (Metric "Unique Orders" "2,469"))
     (trace (main (world_of (inr wholesale) " Order Analysis")))
  /\ shown_integer "2,469" = Some 2469.
Proof.
  assert (Hin : In (Draw col1 (Metric "Unique Orders" "2,469"))
                  (trace (main (world_of (inr wholesale) " Order Analysis")))).
  { vm_compute. repeat (first [left; reflexivity | right]). }
  split; [exact Hin | ].
  apply (count_metric_shows_the_count
           (world_of (inr wholesale) " Order Analysis") wholesale col1
           "Unique Orders" "2,469"
           "SELECT COUNT(DISTINCT order_id) FROM orders"
           (scalar "count" (PyInt 2469)) 2469).
  - reflexivity.
  - cbn [In count_labels]. right. left. reflexivity.
  - reflexivity.
  - reflexivity.
  - reflexivity.
  - exact Hin.
Defined.

(** The shop's revenue of exactly 5000 is shown as that amount. *)
Lemma currency_metric_shows_the_amount_witness :
  exists a,
    shown_amount "$5,000.00" = Some a
    /\ (- (1 # 200) <= a - (5000 # 1) <= 1 # 200)%Q
    /\ (forall k : Z, 5000 # 1 == k # 100 -> a == 5000 # 1).
Proof.
  apply (currency_metric_shows_the_amount
           (world_of (inr shop) " Overview") shop col4
           "Total Revenue" "$5,000.00"
           "SELECT ROUND(SUM(payment_value)::NUMERIC, 2) FROM payments"
           (scalar "round" (float (5000 # 1) "5000.0"))
           {| exact := 5000 # 1; repr := "5000.0" |}).
  - reflexivity.
  - cbn [In currency_labels]. left. reflexivity.
  - reflexivity.
  - reflexivity.
  - reflexivity.
  - vm_compute. repeat (first [left; reflexivity | right]).
Defined.

(** Run as the main module, with [__name__] provided and [_name_]
    not. *)
Lemma module_never_calls_main_witness :
  python_names "_name_" = None
  /\ module_body python_names (world_of (inr shop) " Overview")
     = (Raised (OtherError "NameError"), module_setup).
Proof.
  split; [reflexivity | ].
  apply (module_never_calls_main python_names
           (world_of (inr shop) " Overview")).
  reflexivity.
Defined.
